(** * Selah Rhythm: the daily rollover and the schedule grid

    A shallow embedding of the daily-reset hook
    ([src/hooks/useDailyReset.js]), of the application-level reset of the
    main component, and of the schedule handlers of
    [src/components/views/OrderView.jsx], with the properties the
    specification states about them.

    Conventions of the embedding:
    - JavaScript numbers are exact: integers are [Z], pixel offsets and
      fractions of an hour are rationals [Q] (no rounding of doubles);
    - [undefined] fields are [option]s, truthiness is a [bool] function;
    - [localStorage] is a finite map from keys to stored items together
      with the trace of the keys written, oldest first;
    - a React state setter does not run its updater when it is called: the
      update is queued and applied, in call order, by the next render;
    - the clock ([new Date()]) and the random identifier ([genId()]) are
      arguments of the functions that read them. *)

From Stdlib Require Import ZArith QArith Qround Lia Lqa Qfield.
From Stdlib Require Import Strings.String Strings.Ascii DecimalString.
From stdpp Require Import base list gmap strings.

Open Scope Z_scope.

(* ===================================================================== *)
(** ** JavaScript built-ins used by the sources *)
(* ===================================================================== *)

Module JS.

(** [String(n)] for an integer [n]. *)
Definition String_of_Z (n : Z) : string := NilZero.string_of_int (Z.to_int n).

(** [s.padStart(n, '0')]. *)
Definition padStart0 (n : nat) (s : string) : string :=
  String.concat "" (replicate (n - String.length s) "0"%string) +:+ s.

(** Truthiness of a string: only the empty string is falsy. *)
Definition truthy_string (s : string) : bool :=
  match s with EmptyString => false | _ => true end.

(** Truthiness of an optional string field ([undefined] is falsy). *)
Definition truthy_ostring (o : option string) : bool :=
  match o with Some s => truthy_string s | None => false end.

(** Truthiness of an optional boolean field. *)
Definition truthy_obool (o : option bool) : bool :=
  match o with Some b => b | None => false end.

(** White space skipped by [parseInt] and [trim] (the ASCII part). *)
Definition is_ws (a : ascii) : bool :=
  let n := nat_of_ascii a in
  ((9 <=? n)%nat && (n <=? 13)%nat) || (n =? 32)%nat.

Fixpoint skip_ws (s : string) : string :=
  match s with
  | String a r => if is_ws a then skip_ws r else s
  | EmptyString => EmptyString
  end.

(** The value of a digit character, for radices up to 16. *)
Definition digit_val (a : ascii) : option Z :=
  let n := Z.of_nat (nat_of_ascii a) in
  if (48 <=? n) && (n <=? 57) then Some (n - 48)
  else if (97 <=? n) && (n <=? 102) then Some (n - 87)
  else if (65 <=? n) && (n <=? 70) then Some (n - 55)
  else None.

(** The longest prefix of digits of the radix; [None] when it is empty. *)
Fixpoint parse_digits (radix : Z) (s : string) (acc : option Z) : option Z :=
  match s with
  | String a r =>
      match digit_val a with
      | Some d =>
          if d <? radix
          then parse_digits radix r (Some (default 0 acc * radix + d))
          else acc
      | None => acc
      end
  | EmptyString => acc
  end.

(** [parseInt(s)] without a radix; [None] is [NaN]. *)
Definition parseInt (s : string) : option Z :=
  let s1 := skip_ws s in
  let '(neg, s2) :=
    match s1 with
    | String "-" r => (true, r)
    | String "+" r => (false, r)
    | _ => (false, s1)
    end in
  let '(radix, s3) :=
    match s2 with
    | String "0" (String "x" r) => (16, r)
    | String "0" (String "X" r) => (16, r)
    | _ => (10, s2)
    end in
  match parse_digits radix s3 None with
  | Some n => Some (if neg : bool then - n else n)
  | None => None
  end.

(** [parseInt(s) || d]: [NaN] and [0] are falsy. *)
Definition parseInt_or (s : string) (d : Z) : Z :=
  match parseInt s with
  | Some n => if n =? 0 then d else n
  | None => d
  end.

(** [n || d] for a number that may be absent. *)
Definition number_or (o : option Z) (d : Z) : Z :=
  match o with
  | Some n => if n =? 0 then d else n
  | None => d
  end.

Fixpoint rev_string_onto (s acc : string) : string :=
  match s with
  | String a r => rev_string_onto r (String a acc)
  | EmptyString => acc
  end.

(** [s.trim()]. *)
Definition trim (s : string) : string :=
  let back := skip_ws (rev_string_onto (skip_ws s) EmptyString) in
  rev_string_onto back EmptyString.

(** [Math.round(x)]: the nearest integer, halves upwards. *)
Definition Math_round (x : Q) : Z := Qfloor (x + (1 # 2))%Q.

(** [Math.floor(x)]. *)
Definition Math_floor (x : Q) : Z := Qfloor x.

(** [x % m] on a non-negative number [x]. *)
Definition fmod (x : Q) (m : Z) : Q :=
  (x - inject_Z (m * Qfloor (x / inject_Z m)))%Q.

Definition Qmax (a b : Q) : Q := if Qle_bool a b then b else a.
Definition Qmin (a b : Q) : Q := if Qle_bool a b then a else b.

(** [l.slice(-n)]: the last [n] elements, the whole list when shorter. *)
Definition slice_last {A} (n : nat) (l : list A) : list A :=
  drop (length l - n) l.

(** [l.find(p)]. *)
Definition find {A} (p : A -> bool) (l : list A) : option A := List.find p l.

End JS.

(* ===================================================================== *)
(** ** Dates

    A [Date] is an instant, in milliseconds since the epoch, read in a
    local time zone that is a fixed offset from UTC (no daylight saving
    change between two dates that are compared). *)
(* ===================================================================== *)

Module JSDate.

Record Date := mkDate {
  time : Z;       (* [getTime()], milliseconds since 1970-01-01T00:00Z *)
  offset : Z      (* minutes to add to UTC to get local time *)
}.

Definition msPerDay : Z := 86400000.

(** Days since 1970-01-01 of a civil date (proleptic Gregorian). *)
Definition days_from_civil (y m d : Z) : Z :=
  let y' := if m <=? 2 then y - 1 else y in
  let era := y' / 400 in
  let yoe := y' - era * 400 in
  let mp := if m <=? 2 then m + 9 else m - 3 in
  let doy := (153 * mp + 2) / 5 + d - 1 in
  let doe := yoe * 365 + yoe / 4 - yoe / 100 + doy in
  era * 146097 + doe - 719468.

(** The civil date (year, month 1..12, day) of a day number. *)
Definition civil_from_days (z : Z) : Z * Z * Z :=
  let z' := z + 719468 in
  let era := z' / 146097 in
  let doe := z' - era * 146097 in
  let yoe := (doe - doe / 1460 + doe / 36524 - doe / 146096) / 365 in
  let doy := doe - (365 * yoe + yoe / 4 - yoe / 100) in
  let mp := (5 * doy + 2) / 153 in
  let d := doy - (153 * mp + 2) / 5 + 1 in
  let m := if mp <? 10 then mp + 3 else mp - 9 in
  let y := yoe + era * 400 in
  (if m <=? 2 then y + 1 else y, m, d).

Definition localMillis (d : Date) : Z := time d + offset d * 60000.
Definition localDay (d : Date) : Z := localMillis d / msPerDay.

Definition getFullYear (d : Date) : Z := (civil_from_days (localDay d)).1.1.
(** Months count from 0. *)
Definition getMonth (d : Date) : Z := (civil_from_days (localDay d)).1.2 - 1.
Definition getDate (d : Date) : Z := (civil_from_days (localDay d)).2.
(** 0 is Sunday; 1970-01-01 was a Thursday. *)
Definition getDay (d : Date) : Z := (localDay d + 4) mod 7.

(** [new Date(y, m, d)]: local midnight, months from 0. *)
Definition ofLocal (off y m d : Z) : Date :=
  mkDate (days_from_civil y (m + 1) d * msPerDay - off * 60000) off.

(** [d.setHours(0, 0, 0, 0)]. *)
Definition startOfDay (d : Date) : Date :=
  mkDate (localDay d * msPerDay - offset d * 60000) (offset d).

(** [d.setDate(d.getDate() + k)]. *)
Definition addDays (k : Z) (d : Date) : Date :=
  mkDate (time d + k * msPerDay) (offset d).

(** [d.toISOString()]: the UTC time, [YYYY-MM-DDTHH:mm:ss.sssZ]
    (years 0 to 9999). *)
Definition toISOString (d : Date) : string :=
  let '(y, m, dd) := civil_from_days (time d / msPerDay) in
  let ms := time d mod msPerDay in
  let p n z := JS.padStart0 n (JS.String_of_Z z) in
  p 4%nat y +:+ "-" +:+ p 2%nat m +:+ "-" +:+ p 2%nat dd +:+ "T" +:+
  p 2%nat (ms / 3600000) +:+ ":" +:+ p 2%nat (ms / 60000 mod 60) +:+ ":" +:+
  p 2%nat (ms / 1000 mod 60) +:+ "." +:+ p 3%nat (ms mod 1000) +:+ "Z".

End JSDate.


(* ===================================================================== *)
(** ** Data model *)
(* ===================================================================== *)

Module Model.

(** One day of a habit's history. *)
Record HistoryEntry := mkHistoryEntry {
  he_date : string;
  he_done : bool
}.

Record Habit := mkHabit {
  h_id : string;
  h_name : string;
  h_desc : option string;
  h_done : bool;
  h_history : option (list HistoryEntry)
}.

(** The four working lists of tasks. *)
Inductive ListName := Primary | Today | ThisWeek | Later.

Record Task := mkTask {
  t_id : string;
  t_text : string;
  t_done : bool;
  t_cat : string;
  t_time : string;               (* one of TIMES: "", "5m", ..., "3h+" *)
  t_totalFocusMinutes : Z;
  t_completedAt : option string;
  t_archivedAt : option string
}.

Record Tasks := mkTasks {
  primary : list Task;
  today : list Task;
  thisWeek : list Task;
  later : list Task;
  completed : option (list Task)  (* read as [prev.completed || []] *)
}.

Inductive EventType := TEvent | TTask | THabit.

(** [{type: 'task', id, list}] or [{type: 'habit', id}]. *)
Inductive ItemRef :=
| TaskRef (id : string) (list : ListName)
| HabitRef (id : string).

(** A block of the schedule; [persistent] is absent on blocks made by a
    drop. *)
Record SchedEvent := mkEvent {
  e_id : string;
  e_title : string;
  e_hour : Z;
  e_minute : Z;
  e_duration : Z;
  e_type : option EventType;
  e_itemRef : option ItemRef;
  e_persistent : option bool
}.

Record Reflections := mkReflections {
  mattered : string;
  released : string;
  wait : string
}.

Definition emptyReflections : Reflections := mkReflections "" "" "".

(** What a key of [localStorage] holds: a string written as it is, or
    the JSON text of a value.  The JSON text of a list or of an object
    starts with a bracket, so it is equal to no date or week key. *)
Inductive Stored :=
| Raw (s : string)
| JsonHabits (l : list Habit)
| JsonEvents (l : list SchedEvent)
| JsonTasks (t : Tasks)
| JsonReflections (r : Reflections).

Record LocalStorage := mkStorage {
  items : gmap string Stored;
  writes : list string           (* keys passed to [setItem], oldest first *)
}.

Definition getItem (k : string) (ls : LocalStorage) : option Stored :=
  items ls !! k.

Definition setItem (k : string) (v : Stored) (ls : LocalStorage) : LocalStorage :=
  mkStorage (<[k := v]> (items ls)) (writes ls ++ [k]).

(** [(localStorage.getItem(k) || '') !== s], negated. *)
Definition same_text (o : option Stored) (s : string) : bool :=
  match o with
  | None => String.eqb "" s
  | Some (Raw r) => String.eqb r s
  | Some _ => false
  end.

End Model.

(* ===================================================================== *)
(** ** The daily reset ([src/hooks/useDailyReset.js]) *)
(* ===================================================================== *)

Module Rollover.
Import Model JSDate.

Definition KEY_DAY : string := "selah_lastDailyResetISO".
Definition KEY_WEEK : string := "selah_last_habit_reset_week".
Definition KEY_HABITS : string := "selah_habits".
Definition KEY_EVENTS : string := "selah_schedEvents".
Definition KEY_TASKS : string := "selah_tasks".
Definition KEY_GRATITUDE : string := "selah_gratitude".
Definition KEY_REFLECTIONS : string := "selah_reflections".

(** [getTodayISO]: the local date, [YYYY-MM-DD]. *)
Definition getTodayISO (d : Date) : string :=
  JS.String_of_Z (getFullYear d) +:+ "-" +:+
  JS.padStart0 2 (JS.String_of_Z (getMonth d + 1)) +:+ "-" +:+
  JS.padStart0 2 (JS.String_of_Z (getDate d)).

(** [getWeekNumber]: the ISO week of the date. *)
Definition getWeekNumber (d : Date) : Z :=
  let date0 := startOfDay d in
  let date := addDays (3 - (getDay date0 + 6) mod 7) date0 in
  let week1 := ofLocal (offset d) (getFullYear date) 0 4 in
  1 + JS.Math_round
        ((inject_Z (time date - time week1) / inject_Z msPerDay
          - 3 + inject_Z ((getDay week1 + 6) mod 7)) / 7)%Q.

(** The state of the component: the five pieces the hook resets. *)
Record AppState := mkApp {
  habits : list Habit;
  schedEvents : list SchedEvent;
  tasks : Tasks;
  gratitude : string;
  reflections : Reflections
}.

(** A queued state update: one constructor per call of a setter in
    [performDailyReset].  A setter called with an updater function does
    not run it: React puts the function in the queue of the component
    and calls it, with the state of that moment, when it next renders;
    a setter called with a value queues the value.  The writes to
    [localStorage] that the hook makes inside its updaters are therefore
    made at the render, those it makes in the body of
    [performDailyReset] at the call. *)
Inductive Update :=
| UpdHabitsDaily            (* lines 64-68 *)
| UpdEventsPurge            (* lines 71-75 *)
| UpdTasksArchive           (* lines 78-100 *)
| UpdGratitude (s : string) (* line 103 *)
| UpdReflections (r : Reflections) (* line 104 *)
| UpdHabitsWeekly.          (* lines 118-126 *)

Record World := mkWorld {
  ui : AppState;
  pending : list Update;
  storage : LocalStorage
}.

(** [prev.map(h => ({ ...h, done: false }))]. *)
Definition uncheck (h : Habit) : Habit :=
  mkHabit (h_id h) (h_name h) (h_desc h) false (h_history h).

(** [{ ...h, done: false, history: h.history || [] }]: an array, even
    empty, is truthy. *)
Definition uncheckWeekly (h : Habit) : Habit :=
  mkHabit (h_id h) (h_name h) (h_desc h) false (Some (default [] (h_history h))).

(** [prev.filter(e => e.persistent)]. *)
Definition purgeEvents (evs : list SchedEvent) : list SchedEvent :=
  List.filter (fun e => JS.truthy_obool (e_persistent e)) evs.

(** [{ ...t, archivedAt: iso, completedAt: t.completedAt || iso }]. *)
Definition stamp (iso : string) (t : Task) : Task :=
  mkTask (t_id t) (t_text t) (t_done t) (t_cat t) (t_time t)
         (t_totalFocusMinutes t)
         (Some (if JS.truthy_ostring (t_completedAt t)
                then default "" (t_completedAt t) else iso))
         (Some iso).

Definition doneOf (l : list Task) : list Task := List.filter t_done l.
Definition openOf (l : list Task) : list Task :=
  List.filter (fun t => negb (t_done t)) l.

(** The tasks that the updater of lines 78-100 archives, stamped. *)
Definition completedTasks (iso : string) (prev : Tasks) : list Task :=
  map (stamp iso)
      (doneOf (primary prev) ++ doneOf (today prev) ++
       doneOf (thisWeek prev) ++ doneOf (later prev)).

Definition archiveTasks (iso : string) (prev : Tasks) : Tasks :=
  mkTasks (openOf (primary prev)) (openOf (today prev))
          (openOf (thisWeek prev)) (openOf (later prev))
          (Some (JS.slice_last 100
                   (default [] (completed prev) ++ completedTasks iso prev))).

(** Running one queued update at the instant [clock] (what [new Date()]
    gives inside the updater): the new state and the write the updater
    makes. *)
Definition applyUpdate (clock : Date) (u : Update)
    (st : AppState) (ls : LocalStorage) : AppState * LocalStorage :=
  match u with
  | UpdHabitsDaily =>
      let reset := map uncheck (habits st) in
      (mkApp reset (schedEvents st) (tasks st) (gratitude st) (reflections st),
       setItem KEY_HABITS (JsonHabits reset) ls)
  | UpdEventsPurge =>
      let persistent := purgeEvents (schedEvents st) in
      (mkApp (habits st) persistent (tasks st) (gratitude st) (reflections st),
       setItem KEY_EVENTS (JsonEvents persistent) ls)
  | UpdTasksArchive =>
      let newTasks := archiveTasks (toISOString clock) (tasks st) in
      (mkApp (habits st) (schedEvents st) newTasks (gratitude st) (reflections st),
       setItem KEY_TASKS (JsonTasks newTasks) ls)
  | UpdGratitude s =>
      (mkApp (habits st) (schedEvents st) (tasks st) s (reflections st), ls)
  | UpdReflections r =>
      (mkApp (habits st) (schedEvents st) (tasks st) (gratitude st) r, ls)
  | UpdHabitsWeekly =>
      let reset := map uncheckWeekly (habits st) in
      (mkApp reset (schedEvents st) (tasks st) (gratitude st) (reflections st),
       setItem KEY_HABITS (JsonHabits reset) ls)
  end.

Fixpoint applyAll (clock : Date) (us : list Update)
    (st : AppState) (ls : LocalStorage) : AppState * LocalStorage :=
  match us with
  | [] => (st, ls)
  | u :: rest =>
      let '(st', ls') := applyUpdate clock u st ls in
      applyAll clock rest st' ls'
  end.

(** The next render: the queued updates run in the order of their calls. *)
Definition render (clock : Date) (w : World) : World :=
  let '(st, ls) := applyAll clock (pending w) (ui w) (storage w) in
  mkWorld st [] ls.

(** A call of a state setter. *)
Definition enqueue (us : list Update) (w : World) : World :=
  mkWorld (ui w) (pending w ++ us) (storage w).

(** [localStorage.setItem(k, v)], at once. *)
Definition store (k : string) (v : Stored) (w : World) : World :=
  mkWorld (ui w) (pending w) (setItem k v (storage w)).

(** The two quote characters that line 105 writes for the gratitude. *)
Definition emptyJsonString : string :=
  String (ascii_of_nat 34) (String (ascii_of_nat 34) EmptyString).

(** Lines 60-110: the day part of [performDailyReset]. *)
Definition dayReset (now : Date) (w : World) : World :=
  let todayISO := getTodayISO now in
  if same_text (getItem KEY_DAY (storage w)) todayISO then w
  else
    let w1 := enqueue [UpdHabitsDaily] w in
    let w2 := enqueue [UpdEventsPurge] w1 in
    let w3 := enqueue [UpdTasksArchive] w2 in
    let w4 := enqueue [UpdGratitude ""] w3 in
    let w5 := enqueue [UpdReflections emptyReflections] w4 in
    let w6 := store KEY_GRATITUDE (Raw emptyJsonString) w5 in
    let w7 := store KEY_REFLECTIONS (JsonReflections emptyReflections) w6 in
    store KEY_DAY (Raw todayISO) w7.

(** Lines 112-128: the week part. *)
Definition weekReset (now : Date) (w : World) : World :=
  let currentWeek := JS.String_of_Z (getWeekNumber now) in
  if same_text (getItem KEY_WEEK (storage w)) currentWeek then w
  else store KEY_WEEK (Raw currentWeek) (enqueue [UpdHabitsWeekly] w).

(** [performDailyReset], up to its return. *)
Definition performDailyReset (now : Date) (w : World) : World :=
  weekReset now (dayReset now w).

(** One check of the clock: the call and the render that follows it. *)
Definition tick (now : Date) (w : World) : World :=
  render now (performDailyReset now w).

(** Successive checks, the first instant of the list first. *)
Definition ticks (nows : list Date) (w : World) : World :=
  fold_left (fun w now => tick now w) nows w.

(** The state that the updates already queued in [w] lead to; it is
    [ui w] when nothing is queued. *)
Definition settled (now : Date) (w : World) : AppState := ui (render now w).

(** The state part of running queued updates: it does not read the
    storage. *)
Definition runUi (clock : Date) (us : list Update) (st : AppState) : AppState :=
  (applyAll clock us st (mkStorage ∅ [])).1.

(** The key that a queued update writes when it runs. *)
Definition updateKeys (u : Update) : list string :=
  match u with
  | UpdHabitsDaily | UpdHabitsWeekly => [KEY_HABITS]
  | UpdEventsPurge => [KEY_EVENTS]
  | UpdTasksArchive => [KEY_TASKS]
  | UpdGratitude _ | UpdReflections _ => []
  end.

(** Whether the day part, the week part, of a check at [now] fires. *)
Definition dayStale (now : Date) (w : World) : bool :=
  negb (same_text (getItem KEY_DAY (storage w)) (getTodayISO now)).

Definition weekStale (now : Date) (w : World) : bool :=
  negb (same_text (getItem KEY_WEEK (storage w))
                  (JS.String_of_Z (getWeekNumber now))).

(** The updates that a check queues, by the parts that fire. *)
Definition dayUpdates (fires : bool) : list Update :=
  if fires
  then [UpdHabitsDaily; UpdEventsPurge; UpdTasksArchive;
        UpdGratitude ""; UpdReflections emptyReflections]
  else [].

Definition weekUpdates (fires : bool) : list Update :=
  if fires then [UpdHabitsWeekly] else [].

(** The working lists together, in the order of the archive. *)
Definition working (t : Tasks) : list Task :=
  primary t ++ today t ++ thisWeek t ++ later t.

End Rollover.

(* ===================================================================== *)
(** ** Grid geometry ([getTimeFromY], [getBlockStyle]) *)
(* ===================================================================== *)

Module Grid.
Import Model.

(** [GRID_TOP_PADDING] of the component. *)
Definition GRID_TOP_PADDING : Q := 6.

(** [fmtTimeSlot] of the helpers. *)
Definition fmtTimeSlot (h m : Z) : string :=
  let hour12 := if h =? 0 then 12 else if h >? 12 then h - 12 else h in
  let ampm := if h <? 12 then "AM" else "PM" in
  JS.String_of_Z hour12 +:+ ":" +:+ JS.padStart0 2 (JS.String_of_Z m)
    +:+ " " +:+ ampm.

Section Geometry.
(** The height of an hour in pixels (the constant [HOUR_HEIGHT] of
    [data/constants.js]), the first visible hour and the number of
    visible hours (the state [startH] and [len]). *)
Variable HOUR_HEIGHT : Q.
Variables startH len : Z.

(** [getTimeFromY(y, rect)], [rectTop] being [rect.top]. *)
Definition getTimeFromY (y rectTop : Q) : Z * Z :=
  let relY := (y - rectTop)%Q in
  let adjustedY := JS.Qmax 0 (relY - GRID_TOP_PADDING)%Q in
  let usableHeight := (inject_Z len * HOUR_HEIGHT)%Q in
  let clampedY := JS.Qmax 0 (JS.Qmin adjustedY (usableHeight - 1)%Q) in
  let totalMinutes := (clampedY / HOUR_HEIGHT * 60)%Q in
  let hourOffset := JS.Math_floor (totalMinutes / 60)%Q in
  let rawMinute := JS.fmod totalMinutes 60 in
  let snappedMinute := JS.Math_round (rawMinute / 5)%Q * 5 in
  let finalHour := startH + hourOffset in
  let '(finalHour, finalMinute) :=
    if snappedMinute >=? 60
    then (Z.min (finalHour + 1) (startH + len - 1), 0)
    else (finalHour, snappedMinute) in
  let finalHour := Z.max startH (Z.min finalHour (startH + len - 1)) in
  (finalHour, Z.max 0 (Z.min finalMinute 55)).

(** The [top] of [getBlockStyle(event)], in pixels from the top of the
    grid. *)
Definition blockTop (hour minute : Z) : Q :=
  let hoursFromStart := (inject_Z (hour - startH) + inject_Z minute / 60)%Q in
  (hoursFromStart * HOUR_HEIGHT + GRID_TOP_PADDING)%Q.

(** The [height] of [getBlockStyle(event)], in pixels. *)
Definition blockHeight (duration : Z) : Q :=
  JS.Qmax (inject_Z duration / 60 * HOUR_HEIGHT)%Q 24.

(** [getBlockStyle(event)]: the numbers of the two pixel lengths. *)
Definition getBlockStyle (event : SchedEvent) : Q * Q :=
  (blockTop (e_hour event) (e_minute event), blockHeight (e_duration event)).

End Geometry.

(** [snapToIncrement(minutes)]. *)
Definition snapToIncrement (minutes : Z) : Z :=
  let snapped := JS.Math_round (inject_Z minutes / 5)%Q * 5 in
  if snapped >=? 60 then 55 else snapped.

End Grid.

(* ===================================================================== *)
(** ** The schedule view ([src/components/views/OrderView.jsx]) *)
(* ===================================================================== *)

Module OrderView.
Import Model.

(** [HOUR_HEIGHT] of [data/constants.js]. *)
Definition HOUR_HEIGHT : Q := 64.

(** The open modal: [{mode: 'add'}] or [{mode: 'edit', event}]. *)
Inductive Popover :=
| PopAdd (x y : Q)
| PopEdit (event : SchedEvent) (x y : Q).

Record Preview := mkPreview {
  pv_top : Q;
  pv_height : Q;
  pv_time : string
}.

Record Label := mkLabel {
  lb_x : Q;
  lb_y : Q;
  lb_time : string
}.

(** The props and the state of the component that the handlers read or
    set.  The state setters of one handler are applied by the render
    that follows it; their updaters are pure, so a handler is given as
    the function from the state before it to the state after that
    render. *)
Record State := mkState {
  tasks : Tasks;
  habits : list Habit;
  schedEvents : list SchedEvent;
  startH : Z;
  len : Z;
  popover : option Popover;
  popTitle : string;
  popDuration : Z;
  popHour : Z;
  popMinute : Z;
  confirmDelete : bool;
  customDur : string;
  popType : EventType;
  popItemRef : option string;
  popPersistent : bool;
  dropPreview : option Preview;
  isDraggingBlock : option string;
  dragLabel : option Label
}.

Definition setSchedEvents (f : list SchedEvent -> list SchedEvent) (s : State) : State :=
  mkState (tasks s) (habits s) (f (schedEvents s)) (startH s) (len s)
          (popover s) (popTitle s) (popDuration s) (popHour s) (popMinute s)
          (confirmDelete s) (customDur s) (popType s) (popItemRef s)
          (popPersistent s) (dropPreview s) (isDraggingBlock s) (dragLabel s).

Definition setDropPreview (p : option Preview) (s : State) : State :=
  mkState (tasks s) (habits s) (schedEvents s) (startH s) (len s)
          (popover s) (popTitle s) (popDuration s) (popHour s) (popMinute s)
          (confirmDelete s) (customDur s) (popType s) (popItemRef s)
          (popPersistent s) p (isDraggingBlock s) (dragLabel s).

Definition setDragLabel (l : option Label) (s : State) : State :=
  mkState (tasks s) (habits s) (schedEvents s) (startH s) (len s)
          (popover s) (popTitle s) (popDuration s) (popHour s) (popMinute s)
          (confirmDelete s) (customDur s) (popType s) (popItemRef s)
          (popPersistent s) (dropPreview s) (isDraggingBlock s) l.

Definition setIsDraggingBlock (b : option string) (s : State) : State :=
  mkState (tasks s) (habits s) (schedEvents s) (startH s) (len s)
          (popover s) (popTitle s) (popDuration s) (popHour s) (popMinute s)
          (confirmDelete s) (customDur s) (popType s) (popItemRef s)
          (popPersistent s) (dropPreview s) b (dragLabel s).

Definition setPopover (p : option Popover) (s : State) : State :=
  mkState (tasks s) (habits s) (schedEvents s) (startH s) (len s)
          p (popTitle s) (popDuration s) (popHour s) (popMinute s)
          (confirmDelete s) (customDur s) (popType s) (popItemRef s)
          (popPersistent s) (dropPreview s) (isDraggingBlock s) (dragLabel s).

Definition listKey (l : ListName) : string :=
  match l with
  | Primary => "primary" | Today => "today"
  | ThisWeek => "thisWeek" | Later => "later"
  end.

Definition listLabel (l : ListName) : string :=
  match l with
  | Primary => "Primary" | Today => "Today"
  | ThisWeek => "This Week" | Later => "Later"
  end.

(** A task with the [list] it comes from ([listLabel] is a function of
    it). *)
Record PickerTask := mkPicker {
  pt_task : Task;
  pt_list : ListName
}.

(** [allTasks]: the tasks of the four lists that are not done. *)
Definition allTasks (ts : Tasks) : list PickerTask :=
  List.filter (fun t => negb (t_done (pt_task t)))
    (map (fun t => mkPicker t Primary) (primary ts) ++
     map (fun t => mkPicker t Today) (today ts) ++
     map (fun t => mkPicker t ThisWeek) (thisWeek ts) ++
     map (fun t => mkPicker t Later) (later ts)).

(** The object that a drag carries as [application/json]; a field that
    is absent, or is not of the type the handlers compare it with, is
    [None]. *)
Record DragData := mkDrag {
  d_type : option string;
  d_taskId : option string;
  d_habitId : option string;
  d_blockId : option string;
  d_duration : option Z
}.

(** The outcome of [JSON.parse(e.dataTransfer.getData(..))]. *)
Inductive Parsed :=
| ParseError                (* [JSON.parse] throws *)
| PNull                     (* the text is [null] *)
| PValue (d : DragData).

(** What a handler reads of a drag event. *)
Record DragEvent := mkDragEvent {
  clientX : Q;
  clientY : Q;
  gridTop : option Q;        (* [rect.top]; [None]: [gridRef.current] is null *)
  hasJson : bool;            (* [types] lists [application/json] *)
  data : Parsed
}.

Definition is_type (d : DragData) (s : string) : bool :=
  match d_type d with Some t => String.eqb t s | None => false end.

Definition id_is (o : option string) (id : string) : bool :=
  match o with Some i => String.eqb id i | None => false end.

(** The duration that [handleScheduleDragOver] previews. *)
Definition previewDuration (e : DragEvent) : Z :=
  if hasJson e then
    match data e with
    | ParseError => 60
    | PNull => 60
    | PValue d =>
        let duration := JS.number_or (d_duration d) 60 in
        if is_type d "habit" then 15 else duration
    end
  else 60.

(** [handleScheduleDragOver]. *)
Definition handleScheduleDragOver (e : DragEvent) (s : State) : State :=
  match gridTop e with
  | None => s
  | Some rectTop =>
      let '(hour, minute) :=
        Grid.getTimeFromY HOUR_HEIGHT (startH s) (len s) (clientY e) rectTop in
      let duration := previewDuration e in
      let hoursFromStart := (inject_Z (hour - startH s) + inject_Z minute / 60)%Q in
      let top := (hoursFromStart * HOUR_HEIGHT + Grid.GRID_TOP_PADDING)%Q in
      let height := JS.Qmax (inject_Z duration / 60 * HOUR_HEIGHT)%Q 24 in
      let maxTop := (inject_Z (len s) * HOUR_HEIGHT - height)%Q in
      let s1 := setDropPreview
                  (Some (mkPreview (JS.Qmax 0 (JS.Qmin top maxTop)) height
                                   (Grid.fmtTimeSlot hour minute))) s in
      setDragLabel
        (Some (mkLabel (clientX e) (clientY e) (Grid.fmtTimeSlot hour minute))) s1
  end.

(** [handleScheduleDragLeave]; [inside] tells whether the grid contains
    the element the pointer moved to. *)
Definition handleScheduleDragLeave (inside : bool) (s : State) : State :=
  if inside then s else setDragLabel None (setDropPreview None s).

(** The block that a drop of a task makes. *)
Definition taskBlock (newId : string) (hour minute : Z) (task : PickerTask) : SchedEvent :=
  mkEvent newId (t_text (pt_task task)) hour minute
          (JS.parseInt_or (t_time (pt_task task)) 30)
          (Some TTask) (Some (TaskRef (t_id (pt_task task)) (pt_list task))) None.

(** The block that a drop of a habit makes. *)
Definition habitBlock (newId : string) (hour minute : Z) (habit : Habit) : SchedEvent :=
  mkEvent newId (h_name habit) hour minute 15
          (Some THabit) (Some (HabitRef (h_id habit))) None.

(** [{ ...ev, hour: newHour, minute: newMinute }]. *)
Definition moveTo (newHour newMinute : Z) (ev : SchedEvent) : SchedEvent :=
  mkEvent (e_id ev) (e_title ev) newHour newMinute (e_duration ev)
          (e_type ev) (e_itemRef ev) (e_persistent ev).

(** The start that a drop of a block of [duration] minutes at the
    pointer time [hour]:[minute] gives it (lines 375-380). *)
Definition droppedStart (startH len hour minute duration : Z) : Z * Z :=
  let workdayMinutes := len * 60 in
  let newTotalMinutes := (hour - startH) * 60 + minute in
  let clampedMinutes := Z.max 0 (Z.min newTotalMinutes (workdayMinutes - duration)) in
  let newHour := startH + JS.Math_floor (inject_Z clampedMinutes / 60)%Q in
  let newMinute := Grid.snapToIncrement (clampedMinutes mod 60) in
  (newHour, newMinute).

(** The body of the [try] of [handleScheduleDrop]; [newId] is what
    [genId()] returns. *)
Definition dropCommit (newId : string) (hour minute : Z) (d : DragData)
    (s : State) : State :=
  if is_type d "task" then
    match JS.find (fun t => id_is (d_taskId d) (t_id (pt_task t))) (allTasks (tasks s)) with
    | Some task =>
        setSchedEvents (fun prev => prev ++ [taskBlock newId hour minute task]) s
    | None => s
    end
  else if is_type d "habit" then
    match JS.find (fun h => id_is (d_habitId d) (h_id h)) (habits s) with
    | Some habit =>
        setSchedEvents (fun prev => prev ++ [habitBlock newId hour minute habit]) s
    | None => s
    end
  else if is_type d "scheduleBlock" && JS.truthy_ostring (d_blockId d) then
    let duration := JS.number_or (d_duration d) 30 in
    let '(newHour, newMinute) :=
      droppedStart (startH s) (len s) hour minute duration in
    setSchedEvents
      (map (fun ev => if id_is (d_blockId d) (e_id ev)
                      then moveTo newHour newMinute ev else ev)) s
  else s.

(** [handleScheduleDrop]. *)
Definition handleScheduleDrop (newId : string) (e : DragEvent) (s : State) : State :=
  let s1 := setDragLabel None (setDropPreview None s) in
  match gridTop e with
  | None => s1
  | Some rectTop =>
      let '(hour, minute) :=
        Grid.getTimeFromY HOUR_HEIGHT (startH s) (len s) (clientY e) rectTop in
      match data e with
      | ParseError => s1      (* caught *)
      | PNull => s1           (* [data.type] throws, caught *)
      | PValue d => dropCommit newId hour minute d s1
      end
  end.

(** What [handleBlockDragStart] puts in the drag, read back. *)
Definition blockPayload (event : SchedEvent) : Parsed :=
  PValue (mkDrag (Some "scheduleBlock"%string) None None (Some (e_id event))
                 (Some (e_duration event))).

(** [handleBlockDragStart], on the state. *)
Definition handleBlockDragStart (event : SchedEvent) (s : State) : State :=
  setIsDraggingBlock (Some (e_id event)) s.

(** [handleBlockDragEnd]. *)
Definition handleBlockDragEnd (s : State) : State :=
  setDragLabel None (setDropPreview None (setIsDraggingBlock None s)).

(** [finalDuration] of [saveEvent] (line 445). *)
Definition finalDuration (customDur : string) (popDuration : Z) : Z :=
  if JS.truthy_string customDur
  then Z.min 600 (Z.max 1 (JS.parseInt_or customDur 30))
  else popDuration.

(** The title and the reference that [saveEvent] settles on. *)
Definition resolveTitle (s : State) : string * option ItemRef :=
  let title := JS.trim (popTitle s) in
  match popType s, popItemRef s with
  | TTask, Some ref =>
      if JS.truthy_string ref then
        match JS.find (fun t => String.eqb
                                  (listKey (pt_list t) +:+ ":" +:+ t_id (pt_task t)) ref)
                      (allTasks (tasks s)) with
        | Some task =>
            (t_text (pt_task task),
             Some (TaskRef (t_id (pt_task task)) (pt_list task)))
        | None => (title, None)
        end
      else (title, None)
  | THabit, Some ref =>
      if JS.truthy_string ref then
        match JS.find (fun h => String.eqb (h_id h) ref) (habits s) with
        | Some habit => (h_name habit, Some (HabitRef (h_id habit)))
        | None => (title, None)
        end
      else (title, None)
  | _, _ => (title, None)
  end.

(** [saveEvent]; [newId] is what [genId()] returns. *)
Definition saveEvent (newId : string) (s : State) : State :=
  let '(title, itemRef) := resolveTitle s in
  if negb (JS.truthy_string title) then s
  else
    let finalDuration := finalDuration (customDur s) (popDuration s) in
    match popover s with
    | None => s
    | Some (PopAdd _ _) =>
        setPopover None
          (setSchedEvents
             (fun prev => prev ++
                [mkEvent newId title (popHour s) (popMinute s) finalDuration
                         (Some (popType s)) itemRef (Some (popPersistent s))]) s)
    | Some (PopEdit event _ _) =>
        setPopover None
          (setSchedEvents
             (map (fun ev =>
                     if String.eqb (e_id ev) (e_id event)
                     then mkEvent (e_id ev) title (popHour s) (popMinute s)
                                  finalDuration (Some (popType s)) itemRef
                                  (Some (popPersistent s))
                     else ev)) s)
    end.


(** The gestures of a drag that are not the drop. *)
Inductive Gesture :=
| DragStart (event : SchedEvent)
| DragOver (e : DragEvent)
| DragLeave (inside : bool)
| DragEnd.

Definition gesture (g : Gesture) (s : State) : State :=
  match g with
  | DragStart event => handleBlockDragStart event s
  | DragOver e => handleScheduleDragOver e s
  | DragLeave inside => handleScheduleDragLeave inside s
  | DragEnd => handleBlockDragEnd s
  end.

Definition gestures (gs : list Gesture) (s : State) : State :=
  fold_left (fun s g => gesture g s) gs s.

(** A payload that names no current item: it does not parse, or it is
    a task whose id is that of no task of the working lists but done
    ones, or a habit whose id is that of no habit. *)
Inductive Unresolved (s : State) : Parsed -> Prop :=
| UnresolvedParse : Unresolved s ParseError
| UnresolvedNull : Unresolved s PNull
| UnresolvedTask (d : DragData) :
    is_type d "task" = true ->
    (forall t, In t (Rollover.working (tasks s)) ->
               id_is (d_taskId d) (t_id t) = true -> t_done t = true) ->
    Unresolved s (PValue d)
| UnresolvedHabit (d : DragData) :
    is_type d "habit" = true ->
    (forall h, In h (habits s) -> id_is (d_habitId d) (h_id h) = false) ->
    Unresolved s (PValue d).

End OrderView.

(* ===================================================================== *)
(** ** Sample states *)
(* ===================================================================== *)

Module Samples.
Import Model JSDate Rollover.

(** 2026-01-20, 09:00, in a zone at UTC. *)
Definition jan20 : Date := mkDate (time (ofLocal 0 2026 0 20) + 9 * 3600000) 0.

(** The same day, 12:00. *)
Definition jan20_noon : Date := mkDate (time (ofLocal 0 2026 0 20) + 12 * 3600000) 0.

(** The next day, 00:05. *)
Definition jan21 : Date := mkDate (time (ofLocal 0 2026 0 21) + 5 * 60000) 0.

Definition task (id : string) (done : bool) : Task :=
  mkTask id ("task " +:+ id) done "none" "30m" 0 None None.

(** [n] done tasks, [t0], [t1], ... *)
Definition doneTasks (n : nat) : list Task :=
  map (fun i => task ("t" +:+ JS.String_of_Z (Z.of_nat i)) true) (seq 0 n).

(** A storage whose day key is two days old. *)
Definition staleStorage : LocalStorage :=
  mkStorage (<[KEY_DAY := Raw "2026-01-18"]> (<[KEY_WEEK := Raw "3"]> ∅)) [].

Definition prayer : Habit := mkHabit "1" "Morning prayer" (Some "Start the day with gratitude"%string) true None.
Definition exercise : Habit := mkHabit "3" "Exercise" None false (Some [mkHistoryEntry "2026-01-18" true]).

Definition standup : SchedEvent :=
  mkEvent "ev1" "Stand-up" 9 0 30 (Some TEvent) None (Some true).
Definition lunch : SchedEvent :=
  mkEvent "ev2" "Lunch" 12 0 60 (Some TEvent) None (Some false).
Definition dropped : SchedEvent :=
  mkEvent "ev3" "Read Scripture" 14 15 15 (Some THabit) (Some (HabitRef "2")) None.

(** The state of the scenario of the specification. *)
Definition scenario : World :=
  mkWorld
    (mkApp [prayer; exercise] [standup; lunch; dropped]
           (mkTasks [task "a" true; task "b" false] [] [task "c" true] [] None)
           "thankful" (mkReflections "x" "y" "z"))
    [] staleStorage.

(** 101 done tasks in the primary list. *)
Definition overfull : World :=
  mkWorld
    (mkApp [] [] (mkTasks (doneTasks 101) [] [] [] (Some [])) "" emptyReflections)
    [] staleStorage.


End Samples.

Module ViewSamples.
Import Model OrderView.

(** The view at its initial settings (9 AM, 8 hours) with the events
    and the tasks of the scenario. *)
Definition view : State :=
  mkState (mkTasks [Samples.task "a" true; Samples.task "b" false] []
                   [Samples.task "c" true] [] None)
          [Samples.prayer; Samples.exercise]
          [Samples.standup; Samples.lunch]
          9 8 None "" 30 9 0 false "" TEvent None false None None None.

(** The pointer over 2:15 PM: [blockTop] of 14:15 below a grid at 100. *)
Definition at_14_15 (payload : Parsed) : DragEvent :=
  mkDragEvent 40 (100 + 342) (Some 100%Q) true payload.

Definition taskPayload (id : string) : Parsed :=
  PValue (mkDrag (Some "task"%string) (Some id) None None (Some 30)).

Definition habitPayload (id : string) : Parsed :=
  PValue (mkDrag (Some "habit"%string) None (Some id) None (Some 15)).


(** The modal open on the stand-up, with a custom duration typed. *)
Definition editing (custom : string) : State :=
  mkState (tasks view) (habits view) (schedEvents view) 9 8
          (Some (PopEdit Samples.standup 10 20)) "Stand-up" 30 9 0 false custom
          TEvent None true None None None.

End ViewSamples.


(* ===================================================================== *)
(** ** The helpers of the view ([utils/helpers]) *)
(* ===================================================================== *)

Module Helpers.

(** [fmtHour(h)]. *)
Definition fmtHour (h : Z) : string :=
  if h =? 0 then "12 AM"
  else if h =? 12 then "12 PM"
  else if h <? 12 then JS.String_of_Z h +:+ " AM"
  else JS.String_of_Z (h - 12) +:+ " PM".

(** [addMinutes(h, m, dur)]: [Math.floor] rounds down, [%] keeps the sign
    of its left operand. *)
Definition addMinutes (h m dur : Z) : Z * Z :=
  let total := h * 60 + m + dur in
  (Z.rem (total / 60) 24, Z.rem total 60).

End Helpers.

(* ===================================================================== *)
(** ** The schedule view: the grid, the editor and its time picker *)
(* ===================================================================== *)

Module Editor.
Import Model OrderView.

(** [hours]: the hours that the grid draws. *)
Definition hours (startH len : Z) : list Z :=
  List.filter (fun h => h <? 24)
              (map (fun i => startH + Z.of_nat i) (seq 0 (Z.to_nat len))).

(** The events that the grid draws (line 639). *)
Definition visibleEvents (s : State) : list SchedEvent :=
  List.filter (fun e => (startH s <=? e_hour e) && (e_hour e <? startH s + len s))
              (schedEvents s).

(** [isCompact(event)]. *)
Definition isCompact (event : SchedEvent) : bool := e_duration event <=? 30.

(** The [itemRef.id] of an event whose [itemRef.type] is ['task']. *)
Definition taskRefId (e : SchedEvent) : option string :=
  match e_itemRef e with
  | Some (TaskRef id _) => Some id
  | _ => None
  end.

(** [scheduledTaskIds]: the set of the tasks that have a block. *)
Definition scheduledTaskIds (evs : list SchedEvent) : gset string :=
  list_to_set (omap taskRefId evs).

(** [handleScheduleReset]; [confirmed] is the answer to [window.confirm]. *)
Definition handleScheduleReset (confirmed : bool) (s : State) : State :=
  if confirmed then setSchedEvents (fun _ => []) s else s.








Definition setPopHour (h : Z) (s : State) : State :=
  mkState (tasks s) (habits s) (schedEvents s) (startH s) (len s)
          (popover s) (popTitle s) (popDuration s) h (popMinute s)
          (confirmDelete s) (customDur s) (popType s) (popItemRef s)
          (popPersistent s) (dropPreview s) (isDraggingBlock s) (dragLabel s).

Definition setConfirmDelete (b : bool) (s : State) : State :=
  mkState (tasks s) (habits s) (schedEvents s) (startH s) (len s)
          (popover s) (popTitle s) (popDuration s) (popHour s) (popMinute s)
          b (customDur s) (popType s) (popItemRef s)
          (popPersistent s) (dropPreview s) (isDraggingBlock s) (dragLabel s).


(** [deleteEvent]: the first press arms, the second deletes. *)
Definition deleteEvent (s : State) : State :=
  if negb (confirmDelete s) then setConfirmDelete true s
  else
    match popover s with
    | None => s                  (* [popover.event] throws *)
    | Some (PopAdd _ _) => setConfirmDelete false (setPopover None s)
    | Some (PopEdit event _ _) =>
        setConfirmDelete false
          (setPopover None
             (setSchedEvents
                (List.filter (fun e => negb (String.eqb (e_id e) (e_id event)))) s))
    end.

(** The hour that the hour select shows:
    [popHour % 12 === 0 ? 12 : popHour % 12]. *)
Definition shownHour (popHour : Z) : Z :=
  if Z.rem popHour 12 =? 0 then 12 else Z.rem popHour 12.

(** The [onChange] of the hour select, for the option [hour12]. *)
Definition chooseHour (hour12 popHour : Z) : Z :=
  let isPM := 12 <=? popHour in
  if isPM then (if hour12 =? 12 then 12 else hour12 + 12)
  else (if hour12 =? 12 then 0 else hour12).

(** The AM and the PM buttons. *)
Definition pressAM (popHour : Z) : Z :=
  if 12 <=? popHour then popHour - 12 else popHour.

Definition pressPM (popHour : Z) : Z :=
  if popHour <? 12 then popHour + 12 else popHour.


(** [TIMES] of [data/constants.js]: the time estimates of a task. *)
Definition TIMES : list string := [""; "5m"; "15m"; "30m"; "1h"; "2h"; "3h+"].

(** The payload that [TaskItem] gives a dragged task and the one that
    [HabitsSection] gives a dragged habit, read back. *)
Definition taskPayload (task : Task) : Parsed :=
  PValue (mkDrag (Some "task"%string) (Some (t_id task)) None None
                 (Some (JS.parseInt_or (t_time task) 30))).

Definition habitPayload (habit : Habit) : Parsed :=
  PValue (mkDrag (Some "habit"%string) None (Some (h_id habit)) None (Some 15)).

End Editor.

(* ===================================================================== *)
(** ** The task and habit operations of the main component *)
(* ===================================================================== *)

Module App.
Import Model JSDate.

(** [prev[list]] and [{ ...prev, [list]: v }]. *)
Definition getList (l : ListName) (t : Tasks) : list Task :=
  match l with
  | Primary => primary t | Today => today t
  | ThisWeek => thisWeek t | Later => later t
  end.

Definition setList (l : ListName) (v : list Task) (t : Tasks) : Tasks :=
  match l with
  | Primary => mkTasks v (today t) (thisWeek t) (later t) (completed t)
  | Today => mkTasks (primary t) v (thisWeek t) (later t) (completed t)
  | ThisWeek => mkTasks (primary t) (today t) v (later t) (completed t)
  | Later => mkTasks (primary t) (today t) (thisWeek t) v (completed t)
  end.

Definition ListName_eqb (a b : ListName) : bool :=
  match a, b with
  | Primary, Primary | Today, Today | ThisWeek, ThisWeek | Later, Later => true
  | _, _ => false
  end.

(** [l.findIndex(p)]; [None] is [-1]. *)
Fixpoint findIndex {A} (p : A -> bool) (l : list A) : option nat :=
  match l with
  | [] => None
  | x :: r => if p x then Some 0%nat else S <$> findIndex p r
  end.

(** [l.splice(k, 0, x)] on a copy: past the end, [x] goes last. *)
Definition insertAt {A} (k : nat) (x : A) (l : list A) : list A :=
  take k l ++ x :: drop k l.

(** [l.splice(k, 1)] on a copy. *)
Definition removeAt {A} (k : nat) (l : list A) : list A :=
  take k l ++ drop (S k) l.

(** The updater of [reorderHabit(habitId, newIndex)]; the index is that
    of an item of the rendered list. *)
Definition reorderHabit (habitId : string) (newIndex : nat) (p : list Habit) : list Habit :=
  match findIndex (fun h => String.eqb (h_id h) habitId) p with
  | None => p
  | Some index =>
      if (index =? newIndex)%nat then p
      else
        match p !! index with
        | Some removed => insertAt newIndex removed (removeAt index p)
        | None => p
        end
  end.

(** The updater of [reorderTask(taskId, fromList, toList, targetIndex)]. *)
Definition reorderTask (taskId : string) (fromList toList : ListName)
    (targetIndex : nat) (prev : Tasks) : Tasks :=
  match JS.find (fun t => String.eqb (t_id t) taskId) (getList fromList prev) with
  | None => prev
  | Some task =>
      let newFrom :=
        List.filter (fun t => negb (String.eqb (t_id t) taskId)) (getList fromList prev) in
      if ListName_eqb fromList toList then
        let adjustedIndex := Nat.min targetIndex (length newFrom) in
        setList fromList (insertAt adjustedIndex task newFrom) prev
      else
        let newTo := getList toList prev in
        let adjustedIndex := Nat.min targetIndex (length newTo) in
        setList toList (insertAt adjustedIndex task newTo) (setList fromList newFrom prev)
  end.

(** [addTask(text, list, cat, tm)]: the list is chosen on [tasks], the
    state of the render that made the handler, and the updater works on
    [p], the state it is given; a sixth primary task goes to the today
    list; [newId] is what [genId()] returns, [tm] is a string. *)
Definition addTask (newId text : string) (list : ListName) (cat tm : string)
    (tasks p : Tasks) : Tasks :=
  let list :=
    match list with
    | Primary => if (5 <=? length (primary tasks))%nat then Today else Primary
    | _ => list
    end in
  setList list
    (getList list p ++
     [mkTask newId text false (if JS.truthy_string cat then cat else "none")
             tm 0 None None])
    p.

(** [moveTask(id, from, to)]: the task is looked up in [tasks], the
    state of the render, and the updater works on [p]; in the object
    literal the key [to] is written after the key [from]. *)
Definition moveTask (id : string) (from to : ListName) (tasks p : Tasks) : Tasks :=
  match JS.find (fun x => String.eqb (t_id x) id) (getList from tasks) with
  | Some t =>
      setList to (getList to p ++ [t])
        (setList from (List.filter (fun x => negb (String.eqb (t_id x) id)) (getList from p)) p)
  | None => p
  end.

(** The list that [handleMoveToLater] of [TaskItem] moves a swiped task
    of the list [list] to. *)
Definition swipeTarget (list : ListName) : ListName :=
  match list with Today => ThisWeek | _ => Later end.

(** [s.split('T')[0]]. *)
Fixpoint beforeT (s : string) : string :=
  match s with
  | EmptyString => EmptyString
  | String a r => if Ascii.eqb a "T" then EmptyString else String a (beforeT r)
  end.

(** The day of [togHabit]: [new Date().toISOString().split('T')[0]]. *)
Definition utcDay (clock : Date) : string := beforeT (toISOString clock).

(** [newHistory[todayIndex].done = newDone] on the first entry of the
    day. *)
Fixpoint markDay (day : string) (done : bool) (h : list HistoryEntry) : list HistoryEntry :=
  match h with
  | [] => []
  | e :: r =>
      if String.eqb (he_date e) day then mkHistoryEntry (he_date e) done :: r
      else e :: markDay day done r
  end.

(** The new history that [togHabit] gives a habit. *)
Definition toggledHistory (day : string) (newDone : bool)
    (history : option (list HistoryEntry)) : list HistoryEntry :=
  let newHistory := default [] history in
  let newHistory :=
    match findIndex (fun e => String.eqb (he_date e) day) newHistory with
    | Some _ => markDay day newDone newHistory
    | None => newHistory ++ [mkHistoryEntry day newDone]
    end in
  JS.slice_last 7 newHistory.

(** The updater of [togHabit(id)] on the day [day]. *)
Definition togHabit (day id : string) (p : list Habit) : list Habit :=
  map (fun x =>
         if negb (String.eqb (h_id x) id) then x
         else
           let newDone := negb (h_done x) in
           mkHabit (h_id x) (h_name x) (h_desc x) newDone
                   (Some (toggledHistory day newDone (h_history x))))
      p.

(** [getWeekNumber] of the main component: the ISO week, on UTC dates
    built from the local date. *)
Definition getWeekNumber (date : Date) : Z :=
  let d0 := days_from_civil (getFullYear date) (getMonth date + 1) (getDate date) in
  let utcDay0 := (d0 + 4) mod 7 in
  let dayNum := if utcDay0 =? 0 then 7 else utcDay0 in
  let d := d0 + 4 - dayNum in
  let yearStart := days_from_civil (civil_from_days d).1.1 1 1 in
  Qceiling ((inject_Z (d * msPerDay - yearStart * msPerDay) / inject_Z msPerDay + 1) / 7)%Q.

End App.


(* ===================================================================== *)
(** ** The ISO week, in days *)
(* ===================================================================== *)

Module Calendar.
Import JSDate.

(** The Thursday of the week, Monday to Sunday, of a day number. *)
Definition thursdayOf (day : Z) : Z := day + 3 - ((day + 4) mod 7 + 6) mod 7.

(** The Monday of the week of a day number. *)
Definition mondayOf (day : Z) : Z := day - ((day + 4) mod 7 + 6) mod 7.

(** The week of the year that a Thursday is in: one more than the whole
    weeks since the first of January of its year. *)
Definition weekOfThursday (T : Z) : Z :=
  (T - days_from_civil (civil_from_days T).1.1 1 1) / 7 + 1.

End Calendar.

(* ===================================================================== *)
(** ** More sample states *)
(* ===================================================================== *)

Module MoreSamples.
Import Model JSDate Rollover.



(** Three habits. *)
Definition scripture : Habit := mkHabit "2" "Read Scripture" None false None.
Definition habits3 : list Habit := [Samples.prayer; scripture; Samples.exercise].

(** Four open tasks in three lists. *)
Definition lists : Tasks :=
  mkTasks [Samples.task "a" false; Samples.task "b" false] [Samples.task "c" false] []
          [Samples.task "d" false] None.

(** A primary list of five tasks. *)
Definition fullPrimary : Tasks :=
  mkTasks (map (fun id => Samples.task id false) ["a"; "b"; "c"; "d"; "e"]) [] [] [] None.

(** A task estimated at two hours, as the picker holds it. *)
Definition report : OrderView.PickerTask :=
  OrderView.mkPicker (mkTask "r" "Write report" false "none" "2h" 0 None None) Today.

End MoreSamples.
(* ===================================================================== *)
(** ** Sanity checks of the built-ins *)
(* ===================================================================== *)

Example parseInt_30m : JS.parseInt "30m" = Some 30.
Proof. reflexivity. Qed.

Example parseInt_1h : JS.parseInt "1h" = Some 1.
Proof. reflexivity. Qed.

Example parseInt_empty : JS.parseInt "" = None.
Proof. reflexivity. Qed.

Example parseInt_neg : JS.parseInt "  -12.5" = Some (-12).
Proof. reflexivity. Qed.

Example parseInt_hex : JS.parseInt "0x1A" = Some 26.
Proof. reflexivity. Qed.

Example trim_ex : JS.trim "  a b  " = "a b"%string.
Proof. reflexivity. Qed.

Example iso_ex :
  JSDate.toISOString (JSDate.ofLocal 0 2026 0 20) = "2026-01-20T00:00:00.000Z"%string.
Proof. vm_compute. reflexivity. Qed.

Example day_ex : JSDate.getDay (JSDate.ofLocal 60 2026 0 20) = 2.
Proof. vm_compute. reflexivity. Qed.

Example week_2026_01_20 :
  Rollover.getWeekNumber (JSDate.mkDate (JSDate.time (JSDate.ofLocal 60 2026 0 20) + 9 * 3600000) 60) = 4.
Proof. vm_compute. reflexivity. Qed.

Example week_2020_12_31 :
  Rollover.getWeekNumber (JSDate.ofLocal (-300) 2020 11 31) = 53.
Proof. vm_compute. reflexivity. Qed.

Example week_2021_01_03 :
  Rollover.getWeekNumber (JSDate.ofLocal (-300) 2021 0 3) = 53.
Proof. vm_compute. reflexivity. Qed.

Example week_2024_12_30 :
  Rollover.getWeekNumber (JSDate.ofLocal 0 2024 11 30) = 1.
Proof. vm_compute. reflexivity. Qed.

Example todayISO_ex :
  Rollover.getTodayISO (JSDate.mkDate (JSDate.time (JSDate.ofLocal 60 2026 0 20) + 9 * 3600000) 60)
  = "2026-01-20"%string.
Proof. vm_compute. reflexivity. Qed.

Example todayISO_before_midnight_utc :
  Rollover.getTodayISO (JSDate.mkDate (JSDate.time (JSDate.ofLocal 0 2026 2 1) - 1) (-480))
  = "2026-02-28"%string.
Proof. vm_compute. reflexivity. Qed.

(* ===================================================================== *)
(** ** The daily reset: storage and queue lemmas *)
(* ===================================================================== *)

Section RolloverFacts.
Import Model JSDate Rollover.

Lemma getItem_setItem_same k v ls : getItem k (setItem k v ls) = Some v.
Proof. unfold getItem, setItem; simpl. apply lookup_insert_eq. Qed.

Lemma getItem_setItem_other k k' v ls :
  k <> k' -> getItem k (setItem k' v ls) = getItem k ls.
Proof. intros Hne. unfold getItem, setItem; simpl. by apply lookup_insert_ne. Qed.

Lemma same_text_refl s : same_text (Some (Raw s)) s = true.
Proof. simpl. apply String.eqb_refl. Qed.

(** A queued update writes neither ledger key. *)
Lemma applyUpdate_keeps clock u st ls k :
  ~ In k (updateKeys u) ->
  getItem k (applyUpdate clock u st ls).2 = getItem k ls.
Proof.
  intros Hk. destruct u; simpl in *; try reflexivity;
    apply getItem_setItem_other; intros ->; apply Hk; by left.
Qed.

Lemma applyAll_keeps clock us : forall st ls k,
  ~ In k (flat_map updateKeys us) ->
  getItem k (applyAll clock us st ls).2 = getItem k ls.
Proof.
  induction us as [|u us IH]; intros st ls k Hk; simpl; [reflexivity|].
  destruct (applyUpdate clock u st ls) as [st' ls'] eqn:E.
  rewrite IH.
  - change ls' with (st', ls').2. rewrite <- E. apply applyUpdate_keeps.
    intros Hin. apply Hk. simpl. apply in_or_app. by left.
  - intros Hin. apply Hk. simpl. apply in_or_app. by right.
Qed.

Lemma ledger_not_written us :
  ~ In KEY_DAY (flat_map updateKeys us) /\ ~ In KEY_WEEK (flat_map updateKeys us).
Proof.
  induction us as [|u us [IH1 IH2]]; simpl; [tauto|].
  split; intros Hin; apply in_app_or in Hin as [Hin|Hin];
    try (by (apply IH1 || apply IH2));
    destruct u; simpl in Hin; intuition discriminate.
Qed.

(** The state part of a run of queued updates ignores the storage. *)
Lemma applyUpdate_ui clock u st ls ls' :
  (applyUpdate clock u st ls).1 = (applyUpdate clock u st ls').1.
Proof. destruct u; reflexivity. Qed.

Lemma applyAll_ui clock us : forall st ls,
  (applyAll clock us st ls).1 = runUi clock us st.
Proof.
  unfold runUi. induction us as [|u us IH]; intros st ls; simpl; [reflexivity|].
  pose proof (applyUpdate_ui clock u st ls (mkStorage ∅ [])) as Hui.
  destruct (applyUpdate clock u st ls) as [st1 ls1].
  destruct (applyUpdate clock u st (mkStorage ∅ [])) as [st2 ls2].
  simpl in Hui. subst st2. rewrite IH. symmetry. apply IH.
Qed.

Lemma runUi_app clock us vs st :
  runUi clock (us ++ vs) st = runUi clock vs (runUi clock us st).
Proof.
  revert st. induction us as [|u us IH]; intros st; [reflexivity|].
  unfold runUi at 1 3. simpl.
  destruct (applyUpdate clock u st (mkStorage ∅ [])) as [st1 ls1].
  rewrite !applyAll_ui. apply IH.
Qed.


Lemma ui_render clock w : ui (render clock w) = runUi clock (pending w) (ui w).
Proof.
  unfold render. rewrite <- (applyAll_ui clock (pending w) (ui w) (storage w)).
  by destruct (applyAll clock (pending w) (ui w) (storage w)).
Qed.

Lemma storage_render clock w :
  storage (render clock w) = (applyAll clock (pending w) (ui w) (storage w)).2.
Proof.
  unfold render. by destruct (applyAll clock (pending w) (ui w) (storage w)).
Qed.

Lemma pending_render clock w : pending (render clock w) = [].
Proof.
  unfold render. by destruct (applyAll clock (pending w) (ui w) (storage w)).
Qed.

Lemma render_ledger clock w :
  getItem KEY_DAY (storage (render clock w)) = getItem KEY_DAY (storage w) /\
  getItem KEY_WEEK (storage (render clock w)) = getItem KEY_WEEK (storage w).
Proof.
  rewrite storage_render.
  destruct (ledger_not_written (pending w)) as [H1 H2].
  split; by apply applyAll_keeps.
Qed.

Lemma render_settled clock w : pending w = [] -> render clock w = w.
Proof. intros H. unfold render. rewrite H. simpl. destruct w; simpl in *; by subst. Qed.

(** After the day part the day key is the key of today. *)
Lemma dayReset_done now w : dayStale now (dayReset now w) = false.
Proof.
  unfold dayStale, dayReset.
  destruct (same_text (getItem KEY_DAY (storage w)) (getTodayISO now)) eqn:E.
  - by rewrite E.
  - simpl. rewrite getItem_setItem_same, same_text_refl. reflexivity.
Qed.

Lemma weekReset_done now w : weekStale now (weekReset now w) = false.
Proof.
  unfold weekStale, weekReset.
  destruct (same_text (getItem KEY_WEEK (storage w)) _) eqn:E.
  - by rewrite E.
  - simpl. rewrite getItem_setItem_same, same_text_refl. reflexivity.
Qed.

Lemma weekReset_day now w :
  getItem KEY_DAY (storage (weekReset now w)) = getItem KEY_DAY (storage w).
Proof.
  unfold weekReset. destruct (same_text _ _); [reflexivity|].
  simpl. by apply getItem_setItem_other.
Qed.

Lemma dayReset_fresh now w : dayStale now w = false -> dayReset now w = w.
Proof.
  unfold dayStale, dayReset. intros H. apply negb_false_iff in H. by rewrite H.
Qed.

Lemma weekReset_fresh now w : weekStale now w = false -> weekReset now w = w.
Proof.
  unfold weekStale, weekReset. intros H. apply negb_false_iff in H. by rewrite H.
Qed.

Lemma performDailyReset_done now w :
  dayStale now (performDailyReset now w) = false /\
  weekStale now (performDailyReset now w) = false.
Proof.
  unfold performDailyReset. split; [|apply weekReset_done].
  unfold dayStale. rewrite weekReset_day. apply dayReset_done.
Qed.

Lemma performDailyReset_fresh now w :
  dayStale now w = false -> weekStale now w = false ->
  performDailyReset now w = w.
Proof.
  intros Hd Hw. unfold performDailyReset.
  rewrite (dayReset_fresh _ _ Hd). by apply weekReset_fresh.
Qed.

Lemma render_stale clock now w :
  dayStale now (render clock w) = dayStale now w /\
  weekStale now (render clock w) = weekStale now w.
Proof.
  unfold dayStale, weekStale. destruct (render_ledger clock w) as [-> ->]. done.
Qed.

End RolloverFacts.

(* ===================================================================== *)
(** ** The daily reset: the properties of the specification *)
(* ===================================================================== *)

(** C1. For every state and every instant, a second check of the clock
    right after the first leaves everything as the first left it: the
    habits, the events, the tasks, the reflections, the whole storage with
    both ledger keys.  This holds for the call followed by its render
    ([tick]), for the call alone ([performDailyReset]), and for two calls
    that share one render.  Once the boundary is processed, any number of
    further checks at that instant, and any check at an instant of the
    same day and week, change nothing. *)
Theorem tick_idempotent (now : JSDate.Date) (w : Rollover.World) :
  Rollover.tick now (Rollover.tick now w) = Rollover.tick now w /\
  Rollover.performDailyReset now (Rollover.performDailyReset now w)
    = Rollover.performDailyReset now w /\
  Rollover.render now (Rollover.performDailyReset now (Rollover.performDailyReset now w))
    = Rollover.tick now w /\
  (forall n, Nat.iter n (Rollover.tick now) (Rollover.tick now w) = Rollover.tick now w) /\
  (forall now',
     Rollover.getTodayISO now' = Rollover.getTodayISO now ->
     Rollover.getWeekNumber now' = Rollover.getWeekNumber now ->
     Rollover.tick now' (Rollover.tick now w) = Rollover.tick now w).
Proof.
  destruct (performDailyReset_done now w) as [Hd Hw].
  assert (Hcall : Rollover.performDailyReset now (Rollover.performDailyReset now w)
                  = Rollover.performDailyReset now w)
    by (by apply performDailyReset_fresh).
  assert (Hsame : forall now',
            Rollover.getTodayISO now' = Rollover.getTodayISO now ->
            Rollover.getWeekNumber now' = Rollover.getWeekNumber now ->
            Rollover.tick now' (Rollover.tick now w) = Rollover.tick now w).
  { intros now' Hday Hweek. unfold Rollover.tick at 1 2.
    destruct (render_stale now now' (Rollover.performDailyReset now w)) as [Hd' Hw'].
    rewrite performDailyReset_fresh.
    - apply render_settled, pending_render.
    - rewrite Hd'. unfold Rollover.dayStale in *. by rewrite Hday.
    - rewrite Hw'. unfold Rollover.weekStale in *. by rewrite Hweek. }
  assert (Htwice : Rollover.tick now (Rollover.tick now w) = Rollover.tick now w)
    by (by apply Hsame).
  repeat apply conj.
  - exact Htwice.
  - exact Hcall.
  - unfold Rollover.tick. by rewrite Hcall.
  - induction n as [|n IH]; simpl; [reflexivity|]. by rewrite IH.
  - exact Hsame.
Qed.

Lemma tick_idempotent_scenario :
  Rollover.tick Samples.jan20_noon (Rollover.tick Samples.jan20 Samples.scenario)
  = Rollover.tick Samples.jan20 Samples.scenario.
Proof.
  destruct (tick_idempotent Samples.jan20 Samples.scenario) as (_ & _ & _ & _ & Hsame).
  apply Hsame; vm_compute; reflexivity.
Defined.

Section RolloverShape.
Import Model JSDate Rollover.

Lemma dayReset_week now w :
  getItem KEY_WEEK (storage (dayReset now w)) = getItem KEY_WEEK (storage w).
Proof.
  unfold dayReset. destruct (same_text _ _); [reflexivity|].
  simpl. rewrite !getItem_setItem_other; done.
Qed.

Lemma weekStale_dayReset now w : weekStale now (dayReset now w) = weekStale now w.
Proof. unfold weekStale. by rewrite dayReset_week. Qed.

Lemma dayReset_shape now w :
  ui (dayReset now w) = ui w /\
  pending (dayReset now w) = pending w ++ dayUpdates (dayStale now w).
Proof.
  unfold dayReset, dayStale. destruct (same_text _ _); simpl.
  - by rewrite app_nil_r.
  - by rewrite <- !app_assoc.
Qed.

Lemma weekReset_shape now w :
  ui (weekReset now w) = ui w /\
  pending (weekReset now w) = pending w ++ weekUpdates (weekStale now w).
Proof.
  unfold weekReset, weekStale. destruct (same_text _ _); simpl; [|done].
  by rewrite app_nil_r.
Qed.

Lemma performDailyReset_shape now w :
  ui (performDailyReset now w) = ui w /\
  pending (performDailyReset now w)
    = pending w ++ dayUpdates (dayStale now w) ++ weekUpdates (weekStale now w).
Proof.
  unfold performDailyReset.
  destruct (weekReset_shape now (dayReset now w)) as [-> ->].
  destruct (dayReset_shape now w) as [-> ->].
  by rewrite weekStale_dayReset, <- app_assoc.
Qed.

(** The state after a check: the queued updates, then those of the day
    part, then that of the week part. *)
Lemma tick_ui now w :
  ui (tick now w)
  = runUi now (weekUpdates (weekStale now w))
      (runUi now (dayUpdates (dayStale now w)) (settled now w)).
Proof.
  unfold tick, settled. rewrite !ui_render.
  destruct (performDailyReset_shape now w) as [-> ->].
  by rewrite !runUi_app.
Qed.

Lemma runUi_day now st :
  runUi now (dayUpdates true) st
  = mkApp (map uncheck (habits st)) (purgeEvents (schedEvents st))
          (archiveTasks (toISOString now) (tasks st)) "" emptyReflections.
Proof. reflexivity. Qed.

Lemma runUi_week now st :
  runUi now (weekUpdates true) st
  = mkApp (map uncheckWeekly (habits st)) (schedEvents st) (tasks st)
          (gratitude st) (reflections st).
Proof. reflexivity. Qed.

Lemma runUi_nil now st : runUi now [] st = st.
Proof. reflexivity. Qed.

(** The state after a check whose day part fires. *)
Lemma tick_ui_stale now w :
  dayStale now w = true ->
  let before := settled now w in
  ui (tick now w)
  = mkApp (if weekStale now w
           then map uncheckWeekly (map uncheck (habits before))
           else map uncheck (habits before))
          (purgeEvents (schedEvents before))
          (archiveTasks (toISOString now) (tasks before)) "" emptyReflections.
Proof.
  intros Hd before. rewrite tick_ui, Hd, runUi_day.
  destruct (weekStale now w); [rewrite runUi_week | rewrite runUi_nil]; reflexivity.
Qed.

Lemma tick_day_key now w :
  getItem KEY_DAY (storage (tick now w)) = getItem KEY_DAY (storage (dayReset now w)).
Proof.
  unfold tick. destruct (render_ledger now (performDailyReset now w)) as [-> _].
  unfold performDailyReset. apply weekReset_day.
Qed.

Lemma dayReset_key_stale now w :
  dayStale now w = true ->
  getItem KEY_DAY (storage (dayReset now w)) = Some (Raw (getTodayISO now)).
Proof.
  unfold dayStale, dayReset. intros H. apply negb_true_iff in H. rewrite H.
  simpl. apply getItem_setItem_same.
Qed.

(** Lists. *)
Lemma purgeEvents_In e evs :
  In e (purgeEvents evs) <-> In e evs /\ e_persistent e = Some true.
Proof.
  unfold purgeEvents. rewrite List.filter_In.
  destruct (e_persistent e) as [[|]|]; simpl; intuition congruence.
Qed.

Lemma purgeEvents_idem evs : purgeEvents (purgeEvents evs) = purgeEvents evs.
Proof.
  unfold purgeEvents. induction evs as [|e evs IH]; simpl; [reflexivity|].
  destruct (JS.truthy_obool (e_persistent e)) eqn:E; simpl; [|exact IH].
  by rewrite E, IH.
Qed.


Lemma slice_last_all {A} (n : nat) (l : list A) :
  (length l <= n)%nat -> JS.slice_last n l = l.
Proof.
  intros Hn. unfold JS.slice_last. replace (length l - n)%nat with 0%nat by lia.
  reflexivity.
Qed.

Lemma slice_last_app_r {A} (n : nat) (old new : list A) x :
  (length new <= n)%nat -> In x new -> In x (JS.slice_last n (old ++ new)).
Proof.
  intros Hn Hx. unfold JS.slice_last.
  destruct (decide (length old + length new <= n)%nat) as [Hle|Hgt].
  - rewrite length_app. replace (length old + length new - n)%nat with 0%nat by lia.
    simpl. apply in_or_app. by right.
  - rewrite length_app.
    replace (length old + length new - n)%nat
      with (length old - (n - length new))%nat by lia.
    rewrite drop_app_le by lia. apply in_or_app. by right.
Qed.




Lemma openOf_In t l : In t (openOf l) -> t_done t = false.
Proof.
  unfold openOf. rewrite List.filter_In. intros [_ H]. by apply negb_true_iff.
Qed.

Lemma doneOf_In t l : In t (doneOf l) <-> In t l /\ t_done t = true.
Proof. unfold doneOf. apply List.filter_In. Qed.

End RolloverShape.

(** C2, as the code has it.  When the day key of the ledger is not the key
    of today, however old it is, one check gives the rolled-over state:
    every habit is unchecked (the same habits, in the same order), the
    events are those whose [persistent] flag is [true], no working list
    holds a done task, the archive is the last 100 entries of the old
    archive followed by the done tasks with their stamps (so every done
    task is in it when at most 100 tasks were done), the gratitude and the
    reflections are empty, and the day key is the key of today.  The
    rollover is one transaction: the done tasks are appended once. *)
Theorem catch_up_rollover (now : JSDate.Date) (w : Rollover.World) :
  Rollover.dayStale now w = true ->
  let before := Rollover.settled now w in
  let after := Rollover.ui (Rollover.tick now w) in
  let iso := JSDate.toISOString now in
  let archived := Rollover.completedTasks iso (Rollover.tasks before) in
  (forall h, In h (Rollover.habits after) -> Model.h_done h = false) /\
  map Model.h_id (Rollover.habits after) = map Model.h_id (Rollover.habits before) /\
  (forall e, In e (Rollover.schedEvents after) <->
             In e (Rollover.schedEvents before) /\ Model.e_persistent e = Some true) /\
  (forall t, In t (Rollover.working (Rollover.tasks after)) -> Model.t_done t = false) /\
  (forall t, In t (Rollover.working (Rollover.tasks after)) <->
             In t (Rollover.working (Rollover.tasks before)) /\ Model.t_done t = false) /\
  Model.completed (Rollover.tasks after)
    = Some (JS.slice_last 100
              (default [] (Model.completed (Rollover.tasks before)) ++ archived)) /\
  ((length archived <= 100)%nat ->
   forall t, In t (Rollover.working (Rollover.tasks before)) -> Model.t_done t = true ->
             In (Rollover.stamp iso t)
                (default [] (Model.completed (Rollover.tasks after)))) /\
  Rollover.gratitude after = ""%string /\
  Rollover.reflections after = Model.emptyReflections /\
  Model.getItem Rollover.KEY_DAY (Rollover.storage (Rollover.tick now w))
    = Some (Model.Raw (Rollover.getTodayISO now)) /\
  Rollover.dayStale now (Rollover.tick now w) = false.
Proof.
  intros Hd before after iso archived.
  pose proof (tick_ui_stale now w Hd) as Hui. fold before in Hui.
  subst after. rewrite Hui. simpl.
  repeat apply conj.
  - intros h Hh. destruct (Rollover.weekStale now w);
      repeat (apply in_map_iff in Hh as [? [<- Hh]]); reflexivity.
  - destruct (Rollover.weekStale now w); rewrite ?map_map; reflexivity.
  - intros e. apply purgeEvents_In.
  - unfold Rollover.working; simpl. intros t Ht.
    repeat (apply in_app_or in Ht as [Ht|Ht]); by apply openOf_In in Ht.
  - unfold Rollover.working; simpl. unfold Rollover.openOf. intros t.
    rewrite !in_app_iff, !List.filter_In, negb_true_iff. tauto.
  - reflexivity.
  - intros Hlen t Ht Hdone. apply slice_last_app_r; [exact Hlen|].
    unfold archived, Rollover.completedTasks. apply in_map.
    unfold Rollover.working in Ht. rewrite !in_app_iff in *.
    rewrite !doneOf_In. tauto.
  - reflexivity.
  - reflexivity.
  - rewrite tick_day_key. by apply dayReset_key_stale.
  - destruct (performDailyReset_done now w) as [Hdone _].
    unfold Rollover.tick.
    destruct (render_stale now now (Rollover.performDailyReset now w)) as [-> _].
    exact Hdone.
Qed.

Lemma catch_up_rollover_scenario :
  Rollover.dayStale Samples.jan20 Samples.scenario = true /\
  Rollover.schedEvents (Rollover.ui (Rollover.tick Samples.jan20 Samples.scenario))
    = [Samples.standup] /\
  Model.getItem Rollover.KEY_DAY
    (Rollover.storage (Rollover.tick Samples.jan20 Samples.scenario))
    = Some (Model.Raw "2026-01-20").
Proof.
  assert (Hd : Rollover.dayStale Samples.jan20 Samples.scenario = true)
    by (vm_compute; reflexivity).
  split; [exact Hd|].
  pose proof (catch_up_rollover Samples.jan20 Samples.scenario Hd) as H.
  simpl in H. destruct H as (_ & _ & _ & _ & _ & _ & _ & _ & _ & Hkey & _).
  split; [vm_compute; reflexivity|].
  rewrite Hkey. vm_compute. reflexivity.
Defined.

(** C2, as it is stated, fails where more than 100 tasks are done: of 101
    done tasks in the primary list, the first leaves its list and is in
    no entry of the archive. *)
Lemma catch_up_drops_task_over_cap :
  let w := Samples.overfull in
  let after := Rollover.ui (Rollover.tick Samples.jan20 w) in
  let t0 := Samples.task "t0" true in
  Rollover.dayStale Samples.jan20 w = true /\
  In t0 (Model.primary (Rollover.tasks (Rollover.ui w))) /\
  Model.t_done t0 = true /\
  ~ In t0 (Rollover.working (Rollover.tasks after)) /\
  ~ In (Rollover.stamp (JSDate.toISOString Samples.jan20) t0)
       (default [] (Model.completed (Rollover.tasks after))) /\
  forallb (fun t => negb (String.eqb (Model.t_id t) "t0"))
          (default [] (Model.completed (Rollover.tasks after))) = true.
Proof.
  assert (Hids : forallb (fun t => negb (String.eqb (Model.t_id t) "t0"))
            (default [] (Model.completed (Rollover.tasks
               (Rollover.ui (Rollover.tick Samples.jan20 Samples.overfull))))) = true)
    by (vm_compute; reflexivity).
  cbv zeta. repeat apply conj.
  - vm_compute; reflexivity.
  - left. reflexivity.
  - reflexivity.
  - vm_compute. tauto.
  - intros Hin. rewrite forallb_forall in Hids. apply Hids in Hin.
    vm_compute in Hin. discriminate.
  - exact Hids.
Qed.

(** The scenario of the specification: the day key is two days old at
    2026-01-20, 09:00. *)
Example scenario_rollover :
  Rollover.ui (Rollover.tick Samples.jan20 Samples.scenario)
  = Rollover.mkApp
      [Model.mkHabit "1" "Morning prayer" (Some "Start the day with gratitude"%string)
                     false (Some []);
       Model.mkHabit "3" "Exercise" None false
                     (Some [Model.mkHistoryEntry "2026-01-18" true])]
      [Samples.standup]
      (Model.mkTasks [Samples.task "b" false] [] [] []
         (Some [Rollover.stamp "2026-01-20T09:00:00.000Z" (Samples.task "a" true);
                Rollover.stamp "2026-01-20T09:00:00.000Z" (Samples.task "c" true)]))
      "" Model.emptyReflections.
Proof. vm_compute. reflexivity. Qed.

Section EventsFacts.
Import Model JSDate Rollover.

(** Whatever updates run, the events whose flag is [true] are the same,
    in the same order. *)
Lemma applyUpdate_persistent clock u st :
  purgeEvents (schedEvents (runUi clock [u] st)) = purgeEvents (schedEvents st).
Proof. destruct u; try reflexivity. apply purgeEvents_idem. Qed.

Lemma runUi_persistent clock us : forall st,
  purgeEvents (schedEvents (runUi clock us st)) = purgeEvents (schedEvents st).
Proof.
  induction us as [|u us IH]; intros st; [reflexivity|].
  change (u :: us) with ([u] ++ us). rewrite runUi_app, IH.
  apply applyUpdate_persistent.
Qed.

Lemma runUi_events_incl clock us : forall st e,
  In e (schedEvents (runUi clock us st)) -> In e (schedEvents st).
Proof.
  induction us as [|u us IH]; intros st e; [done|].
  change (u :: us) with ([u] ++ us). rewrite runUi_app. intros Hin.
  apply IH in Hin. destruct u; try exact Hin.
  apply purgeEvents_In in Hin. tauto.
Qed.

Lemma tick_persistent now w :
  purgeEvents (schedEvents (ui (tick now w))) = purgeEvents (schedEvents (ui w)).
Proof.
  unfold tick. rewrite ui_render.
  destruct (performDailyReset_shape now w) as [-> _].
  apply runUi_persistent.
Qed.

Lemma ticks_persistent nows : forall w,
  purgeEvents (schedEvents (ui (ticks nows w))) = purgeEvents (schedEvents (ui w)).
Proof.
  unfold ticks. induction nows as [|now nows IH]; intros w; simpl; [reflexivity|].
  rewrite IH. apply tick_persistent.
Qed.

End EventsFacts.

(** C3. An event whose [persistent] flag is [true] is in the store after
    any number of checks of the clock, whichever of them roll the day
    over, as the same record; more, the persistent events are the same
    list in the same order.  An event whose flag is [false] or absent is
    in the store after no check that rolls the day over. *)
Theorem persistent_events_survive (nows : list JSDate.Date) (w : Rollover.World) :
  Rollover.purgeEvents (Rollover.schedEvents (Rollover.ui (Rollover.ticks nows w)))
    = Rollover.purgeEvents (Rollover.schedEvents (Rollover.ui w)) /\
  (forall e, In e (Rollover.schedEvents (Rollover.ui w)) ->
             Model.e_persistent e = Some true ->
             In e (Rollover.schedEvents (Rollover.ui (Rollover.ticks nows w)))) /\
  (forall now e, Rollover.dayStale now w = true ->
                 Model.e_persistent e <> Some true ->
                 ~ In e (Rollover.schedEvents (Rollover.ui (Rollover.tick now w)))).
Proof.
  pose proof (ticks_persistent nows w) as Heq.
  split; [exact Heq|]. split.
  - intros e Hin Hp.
    assert (Hk : In e (Rollover.purgeEvents (Rollover.schedEvents (Rollover.ui w))))
      by (by apply purgeEvents_In).
    rewrite <- Heq in Hk. apply purgeEvents_In in Hk. tauto.
  - intros now e Hd Hp Hin.
    rewrite (tick_ui_stale now w Hd) in Hin.
    simpl in Hin. apply purgeEvents_In in Hin. tauto.
Qed.

Lemma persistent_events_survive_scenario :
  In Samples.standup
     (Rollover.schedEvents
        (Rollover.ui (Rollover.ticks [Samples.jan20; Samples.jan21] Samples.scenario))) /\
  ~ In Samples.lunch
       (Rollover.schedEvents (Rollover.ui (Rollover.tick Samples.jan20 Samples.scenario))) /\
  ~ In Samples.dropped
       (Rollover.schedEvents (Rollover.ui (Rollover.tick Samples.jan20 Samples.scenario))).
Proof.
  destruct (persistent_events_survive [Samples.jan20; Samples.jan21] Samples.scenario)
    as (_ & Hkeep & Hdrop).
  split; [|split].
  - apply Hkeep; [simpl; left; reflexivity | reflexivity].
  - apply Hdrop; [vm_compute; reflexivity | discriminate].
  - apply Hdrop; [vm_compute; reflexivity | discriminate].
Defined.



Section WriteOrder.
Import Model JSDate Rollover.





End WriteOrder.



(* ===================================================================== *)
(** ** Grid geometry *)
(* ===================================================================== *)

Lemma Qfloor_unique (x : Q) (z : Z) :
  (inject_Z z <= x)%Q -> (x < inject_Z z + 1)%Q -> Qfloor x = z.
Proof.
  intros Hle Hlt.
  apply Z.le_antisymm.
  - apply Z.lt_succ_r. rewrite Zlt_Qlt.
    apply Qle_lt_trans with x; [apply Qfloor_le|].
    unfold Z.succ. rewrite inject_Z_plus. exact Hlt.
  - rewrite <- (Qfloor_Z z). by apply Qfloor_resp_le.
Qed.

Lemma Qmax_cases (a b : Q) :
  ((a <= b)%Q /\ JS.Qmax a b = b) \/ ((b < a)%Q /\ JS.Qmax a b = a).
Proof.
  unfold JS.Qmax. destruct (Qle_bool a b) eqn:E.
  - left. split; [by apply Qle_bool_iff | reflexivity].
  - right. split; [|reflexivity]. apply Qnot_le_lt. intros H.
    apply Qle_bool_iff in H. congruence.
Qed.

Lemma Qmin_cases (a b : Q) :
  ((a <= b)%Q /\ JS.Qmin a b = a) \/ ((b < a)%Q /\ JS.Qmin a b = b).
Proof.
  unfold JS.Qmin. destruct (Qle_bool a b) eqn:E.
  - left. split; [by apply Qle_bool_iff | reflexivity].
  - right. split; [|reflexivity]. apply Qnot_le_lt. intros H.
    apply Qle_bool_iff in H. congruence.
Qed.

(** A number of minutes within two and a half minutes of the [j]-th
    multiple of 5 of the hour [k], and within that hour, is read as
    [k]:[5j]. *)
Lemma snap_total (total : Q) (k j : Z) :
  (inject_Z (60 * k) <= total)%Q -> (total < inject_Z (60 * k) + 60)%Q ->
  (inject_Z (60 * k + 5 * j) - (5 # 2) <= total)%Q ->
  (total < inject_Z (60 * k + 5 * j) + (5 # 2))%Q ->
  JS.Math_floor (total / 60)%Q = k /\
  JS.Math_round (JS.fmod total 60 / 5)%Q * 5 = 5 * j.
Proof.
  intros H1 H2 H3 H4.
  rewrite !inject_Z_plus, !inject_Z_mult in *.
  change (inject_Z 60) with 60%Q in *. change (inject_Z 5) with 5%Q in *.
  assert (Hk : JS.Math_floor (total / 60)%Q = k).
  { unfold JS.Math_floor. apply Qfloor_unique.
    - apply Qle_shift_div_l; lra.
    - apply Qlt_shift_div_r; lra. }
  split; [exact Hk|].
  unfold JS.fmod. change (inject_Z 60) with 60%Q.
  unfold JS.Math_floor in Hk. rewrite Hk.
  unfold JS.Math_round. rewrite (Qfloor_unique _ j); [lia| |].
  - rewrite inject_Z_mult. change (inject_Z 60) with 60%Q.
    unfold Qdiv. change (/ 5)%Q with (1 # 5)%Q. lra.
  - rewrite inject_Z_mult. change (inject_Z 60) with 60%Q.
    unfold Qdiv. change (/ 5)%Q with (1 # 5)%Q. lra.
Qed.

Lemma inject_Z_le (x y : Z) : x <= y -> (inject_Z x <= inject_Z y)%Q.
Proof. intros H. by rewrite <- Zle_Qle. Qed.

Ltac qlra :=
  unfold Qdiv in *;
  change (/ 60)%Q with (1 # 60)%Q in *;
  change (/ 5)%Q with (1 # 5)%Q in *;
  lra.

(** C6. For every hour of the visible window and every minute that is a
    multiple of 5, the pixel offset that [getBlockStyle] gives the time,
    read back by [getTimeFromY] under any position [rectTop] of the grid,
    is that hour and that minute.  It holds for every height of an hour
    of at least 8 pixels, so for the 64 pixels of [HOUR_HEIGHT]
    (arithmetic is exact; see [grid_round_trip_needs_height] for smaller
    heights). *)
Theorem grid_round_trip (HH rectTop : Q) (startH len hour minute : Z) :
  (8 <= HH)%Q ->
  startH <= hour < startH + len ->
  0 <= minute < 60 ->
  minute mod 5 = 0 ->
  Grid.getTimeFromY HH startH len
    (rectTop + Grid.blockTop HH startH hour minute) rectTop
  = (hour, minute).
Proof.
  intros HHH Hh Hm H5.
  set (k := hour - startH). set (j := minute / 5).
  assert (Hj : minute = 5 * j) by (unfold j; apply Z.div_exact in H5; lia).
  assert (Hj0 : 0 <= j <= 11) by lia.
  assert (Hk0 : 0 <= k <= len - 1) by lia.
  set (A := ((inject_Z k + inject_Z minute / 60) * HH)%Q).
  assert (HA : (rectTop + Grid.blockTop HH startH hour minute - rectTop
                - Grid.GRID_TOP_PADDING == A)%Q).
  { unfold Grid.blockTop, A. fold k. ring. }
  assert (Hk1 : (0 <= inject_Z k)%Q) by (apply (inject_Z_le 0 k); lia).
  assert (Hlenk : (inject_Z k + 1 <= inject_Z len)%Q).
  { change 1%Q with (inject_Z 1). rewrite <- inject_Z_plus. apply inject_Z_le. lia. }
  assert (Hm0 : (0 <= inject_Z minute)%Q) by (apply (inject_Z_le 0 minute); lia).
  assert (Hm1 : (inject_Z minute <= 55)%Q) by (apply (inject_Z_le minute 55); lia).
  assert (HA0 : (0 <= A)%Q).
  { unfold A. apply Qmult_le_0_compat; qlra. }
  unfold Grid.getTimeFromY.
  set (adj := JS.Qmax 0 (_ - Grid.GRID_TOP_PADDING)%Q).
  assert (Hadj : (adj == A)%Q).
  { unfold adj. destruct (Qmax_cases 0 (rectTop + Grid.blockTop HH startH hour minute - rectTop
                - Grid.GRID_TOP_PADDING)) as [[_ ->]|[Hlt _]]; [exact HA|].
    rewrite HA in Hlt. lra. }
  set (c := JS.Qmax 0 (JS.Qmin adj _)).
  set (total := (c / HH * 60)%Q).
  assert (Htot : (inject_Z (60 * k) <= total)%Q /\ (total < inject_Z (60 * k) + 60)%Q /\
                 (inject_Z (60 * k + 5 * j) - (5 # 2) <= total)%Q /\
                 (total < inject_Z (60 * k + 5 * j) + (5 # 2))%Q).
  { rewrite <- Hj. rewrite !inject_Z_plus, !inject_Z_mult.
    change (inject_Z 60) with 60%Q.
    assert (HHpos : ~ (HH == 0)%Q) by lra.
    destruct (Qmin_cases adj (inject_Z len * HH - 1)%Q) as [[Hle Hmin]|[Hlt Hmin]].
    - (* no clamping: the offset is that of the block *)
      assert (Hc : (c == A)%Q).
      { unfold c. rewrite Hmin.
        destruct (Qmax_cases 0 adj) as [[_ ->]|[Hneg _]]; [exact Hadj | lra]. }
      assert (Ht : (total == 60 * inject_Z k + inject_Z minute)%Q).
      { unfold total. rewrite Hc. unfold A. field. exact HHpos. }
      rewrite Ht. qlra.
    - (* the last pixel of the grid *)
      assert (Hc : (c == inject_Z len * HH - 1)%Q).
      { unfold c. rewrite Hmin.
        destruct (Qmax_cases 0 (inject_Z len * HH - 1)%Q) as [[_ ->]|[Hneg _]];
          [reflexivity | nra]. }
      rewrite Hadj in Hlt. unfold A in Hlt.
      set (d := (inject_Z len - inject_Z k - inject_Z minute / 60)%Q).
      assert (Hd1 : (d * HH < 1)%Q) by (unfold d; qlra).
      assert (Hd0 : (1 # 12 <= d)%Q) by (unfold d; qlra).
      assert (Hd2 : (d < 1 # 8)%Q) by nra.
      assert (Hz : 60 * (len - k) - minute < 8).
      { replace (60 * (len - k) - minute) with (60 * len + (- (60 * k) + - minute)) by lia.
        rewrite Zlt_Qlt, !inject_Z_plus, !inject_Z_opp, !inject_Z_mult.
        change (inject_Z 60) with 60%Q. change (inject_Z 8) with 8%Q.
        unfold d in Hd2. qlra. }
      assert (Hlast : len - k = 1 /\ minute = 55) by lia.
      destruct Hlast as [Hlast Hm55].
      assert (Hlen : (inject_Z len == inject_Z k + 1)%Q).
      { change 1%Q with (inject_Z 1). rewrite <- inject_Z_plus.
        replace (k + 1) with len by lia. reflexivity. }
      assert (Hmin55 : (inject_Z minute == 55)%Q) by (rewrite Hm55; reflexivity).
      set (u := (1 / HH)%Q).
      assert (Hu : (u * HH == 1)%Q) by (unfold u; field; exact HHpos).
      assert (Ht : (total == 60 * inject_Z len - 60 * u)%Q).
      { unfold total, u. rewrite Hc. field. exact HHpos. }
      assert (Hd12 : (d == 1 # 12)%Q) by (unfold d; rewrite Hlen, Hmin55; field).
      rewrite Hd12 in Hd1.
      assert (Hu1 : (u <= 1 # 8)%Q) by nra.
      assert (Hu2 : (1 # 12 < u)%Q) by nra.
      rewrite Ht, Hlen, Hmin55. lra. }
  destruct Htot as (T1 & T2 & T3 & T4).
  destruct (snap_total total k j T1 T2 T3 T4) as [-> ->].
  destruct (5 * j >=? 60) eqn:E; [lia|].
  f_equal; lia.
Qed.

Lemma grid_round_trip_standup :
  Grid.getTimeFromY OrderView.HOUR_HEIGHT 9 8
    (100 + (Grid.getBlockStyle OrderView.HOUR_HEIGHT 9
              (Model.mkEvent "e" "Review" 16 55 30 None None None)).1) 100
  = (16, 55).
Proof.
  apply (grid_round_trip OrderView.HOUR_HEIGHT 100 9 8 16 55).
  - vm_compute. discriminate.
  - lia.
  - lia.
  - reflexivity.
Defined.

(** Below 8 pixels an hour the last five minutes of the window are read
    five minutes early. *)
Example grid_round_trip_needs_height :
  Grid.getTimeFromY 6 9 8 (0 + Grid.blockTop 6 9 16 55) 0 = (16, 50).
Proof. vm_compute. reflexivity. Qed.

Example getTimeFromY_above : Grid.getTimeFromY 64 9 8 50 100 = (9, 0).
Proof. vm_compute. reflexivity. Qed.

(** Below the grid the minute rolls over while the hour is held at the
    last one. *)
Example getTimeFromY_below : Grid.getTimeFromY 64 9 8 5000 100 = (16, 0).
Proof. vm_compute. reflexivity. Qed.

Example fmtTimeSlot_ex : Grid.fmtTimeSlot 14 5 = "2:05 PM"%string.
Proof. vm_compute. reflexivity. Qed.

(** The time that [getTimeFromY] gives is in the visible window, on a
    multiple of 5 minutes. *)
Lemma getTimeFromY_range (HH y rectTop : Q) (startH len : Z) :
  1 <= len ->
  let '(hour, minute) := Grid.getTimeFromY HH startH len y rectTop in
  startH <= hour <= startH + len - 1 /\ 0 <= minute <= 55 /\ minute mod 5 = 0.
Proof.
  intros Hlen. unfold Grid.getTimeFromY.
  set (snapped := JS.Math_round _ * 5).
  set (offs := JS.Math_floor _).
  assert (Hs : snapped mod 5 = 0) by (unfold snapped; apply Z.mod_mul; lia).
  destruct (snapped >=? 60) eqn:E.
  - split; [lia|]. split; [lia|]. reflexivity.
  - split; [lia|]. split; [lia|].
    destruct (Z.le_ge_cases snapped 55) as [H55|H55].
    + destruct (Z.le_ge_cases 0 snapped) as [H0|H0].
      * rewrite Z.min_l, Z.max_r by lia. exact Hs.
      * rewrite Z.min_l, Z.max_l by lia. reflexivity.
    + rewrite Z.min_r, Z.max_r by lia. reflexivity.
Qed.

(* ===================================================================== *)
(** ** The schedule view: drags *)
(* ===================================================================== *)

(** Linear arithmetic with divisions by constants. *)
Ltac zlia := Z.div_mod_to_equations; lia.

Section DragFacts.
Import Model OrderView.

Lemma dragOver_events e s :
  schedEvents (handleScheduleDragOver e s) = schedEvents s.
Proof.
  unfold handleScheduleDragOver. destruct (gridTop e); [|reflexivity].
  destruct (Grid.getTimeFromY _ _ _ _ _). reflexivity.
Qed.

Lemma dragLeave_events inside s :
  schedEvents (handleScheduleDragLeave inside s) = schedEvents s.
Proof. destruct inside; reflexivity. Qed.

Lemma gesture_events g s : schedEvents (gesture g s) = schedEvents s.
Proof.
  destruct g; simpl; [reflexivity | apply dragOver_events
                      | apply dragLeave_events | reflexivity].
Qed.

Lemma find_none_iff {A} (p : A -> bool) (l : list A) :
  JS.find p l = None <-> forall x, In x l -> p x = false.
Proof.
  unfold JS.find. split.
  - apply List.find_none.
  - induction l as [|a l IH]; intros H; simpl; [reflexivity|].
    rewrite (H a) by (by left). apply IH. intros x Hx. apply H. by right.
Qed.

Lemma allTasks_In t ts :
  In t (allTasks ts) ->
  In (pt_task t) (Rollover.working ts) /\ t_done (pt_task t) = false.
Proof.
  unfold allTasks, Rollover.working. rewrite List.filter_In, negb_true_iff.
  intros [Hin Hd]. split; [|exact Hd].
  rewrite !in_app_iff in *. rewrite !in_map_iff in Hin.
  destruct Hin as [Hin|[Hin|[Hin|Hin]]]; destruct Hin as (x & <- & Hx);
    simpl; tauto.
Qed.

Lemma is_type_exclusive d a b :
  is_type d a = true -> a <> b -> is_type d b = false.
Proof.
  unfold is_type. destruct (d_type d) as [t|]; [|discriminate].
  intros Ha Hab. apply String.eqb_eq in Ha. subst t.
  by apply String.eqb_neq.
Qed.

(** [Math.round(x / 5)] and [Math.floor(c / 60)] on integers. *)
Lemma Math_round_fifth (x : Z) :
  JS.Math_round (inject_Z x / 5)%Q = (2 * x + 5) / 10.
Proof.
  unfold JS.Math_round. apply Qfloor_unique.
  - assert (H : 10 * ((2 * x + 5) / 10) <= 2 * x + 5) by zlia.
    apply inject_Z_le in H. rewrite inject_Z_plus, !inject_Z_mult in H.
    change (inject_Z 10) with 10%Q in H. change (inject_Z 2) with 2%Q in H.
    change (inject_Z 5) with 5%Q in H. qlra.
  - assert (H : 2 * x + 5 + 1 <= 10 * ((2 * x + 5) / 10) + 10) by zlia.
    apply inject_Z_le in H. rewrite !inject_Z_plus, !inject_Z_mult in H.
    change (inject_Z 10) with 10%Q in H. change (inject_Z 2) with 2%Q in H.
    change (inject_Z 5) with 5%Q in H. change (inject_Z 1) with 1%Q in H. qlra.
Qed.

Lemma Math_floor_sixtieth (c : Z) :
  JS.Math_floor (inject_Z c / 60)%Q = c / 60.
Proof.
  unfold JS.Math_floor. apply Qfloor_unique.
  - assert (H : 60 * (c / 60) <= c) by zlia.
    apply inject_Z_le in H. rewrite inject_Z_mult in H.
    change (inject_Z 60) with 60%Q in H. qlra.
  - assert (H : c + 1 <= 60 * (c / 60) + 60) by zlia.
    apply inject_Z_le in H. rewrite !inject_Z_plus, inject_Z_mult in H.
    change (inject_Z 60) with 60%Q in H. change (inject_Z 1) with 1%Q in H. qlra.
Qed.

Lemma snapToIncrement_Z (x : Z) :
  Grid.snapToIncrement x
  = if (2 * x + 5) / 10 * 5 >=? 60 then 55 else (2 * x + 5) / 10 * 5.
Proof. unfold Grid.snapToIncrement. by rewrite Math_round_fifth. Qed.

Lemma snapToIncrement_bounds (x : Z) :
  0 <= x <= 59 ->
  0 <= Grid.snapToIncrement x <= 55 /\
  Grid.snapToIncrement x <= x + 2 /\
  (x mod 5 = 0 -> Grid.snapToIncrement x = x).
Proof.
  intros Hx. rewrite snapToIncrement_Z.
  destruct ((2 * x + 5) / 10 * 5 >=? 60) eqn:E; zlia.
Qed.

Lemma droppedStart_Z (startH len hour minute duration : Z) :
  droppedStart startH len hour minute duration
  = let c := Z.max 0 (Z.min ((hour - startH) * 60 + minute) (len * 60 - duration)) in
    (startH + c / 60, Grid.snapToIncrement (c mod 60)).
Proof. unfold droppedStart. by rewrite Math_floor_sixtieth. Qed.

(** What a drop does to the store depends on the tasks, the habits,
    the store and the window only. *)
Lemma drop_events_ext newId e s s' :
  tasks s = tasks s' -> habits s = habits s' ->
  schedEvents s = schedEvents s' ->
  startH s = startH s' -> len s = len s' ->
  schedEvents (handleScheduleDrop newId e s)
  = schedEvents (handleScheduleDrop newId e s').
Proof.
  intros Ht Hh He Hs Hl. unfold handleScheduleDrop. rewrite Hs, Hl.
  destruct (gridTop e); [|exact He].
  destruct (Grid.getTimeFromY _ _ _ _ _) as [hour minute].
  destruct (data e) as [| |d]; try exact He.
  unfold dropCommit. simpl. rewrite Ht, Hh, Hs, Hl.
  destruct (is_type d "task").
  { destruct (JS.find _ _); simpl; by rewrite He. }
  destruct (is_type d "habit").
  { destruct (JS.find _ _); simpl; by rewrite He. }
  destruct (is_type d "scheduleBlock" && JS.truthy_ostring (d_blockId d)); [|exact He].
  simpl. by rewrite He.
Qed.

End DragFacts.

(** C7. A drag in progress (its start, any number of moves of the pointer
    over the grid, the pointer leaving the grid, the end of a drag that
    was not dropped) leaves the event store, the tasks and the habits as
    they were; these gestures set only the preview, the label and the
    dragged block.  The store changes with the drop, as a drop of a
    current task shows. *)
Theorem drag_preview_keeps_store (gs : list OrderView.Gesture) (s : OrderView.State) :
  OrderView.schedEvents (OrderView.gestures gs s) = OrderView.schedEvents s /\
  OrderView.schedEvents
    (OrderView.handleScheduleDrop "new"
       (ViewSamples.at_14_15 (ViewSamples.taskPayload "b"))
       (OrderView.gestures gs ViewSamples.view))
  = OrderView.schedEvents ViewSamples.view ++
    [Model.mkEvent "new" "task b" 14 15 30 (Some Model.TTask)
                   (Some (Model.TaskRef "b" Model.Primary)) None].
Proof.
  assert (Hkeep : forall s0,
            OrderView.schedEvents (OrderView.gestures gs s0) = OrderView.schedEvents s0 /\
            OrderView.tasks (OrderView.gestures gs s0) = OrderView.tasks s0 /\
            OrderView.habits (OrderView.gestures gs s0) = OrderView.habits s0 /\
            OrderView.startH (OrderView.gestures gs s0) = OrderView.startH s0 /\
            OrderView.len (OrderView.gestures gs s0) = OrderView.len s0).
  { unfold OrderView.gestures. induction gs as [|g gs IH]; intros s0; simpl; [done|].
    destruct (IH (OrderView.gesture g s0)) as (-> & -> & -> & -> & ->).
    destruct g as [ev|e|inside|]; simpl; try done.
    - unfold OrderView.handleScheduleDragOver. destruct (OrderView.gridTop e); [|done].
      destruct (Grid.getTimeFromY _ _ _ _ _). done.
    - destruct inside; done. }
  split; [apply Hkeep|].
  destruct (Hkeep ViewSamples.view) as (He & Ht & Hh & Hs & Hl).
  rewrite (drop_events_ext _ _ _ ViewSamples.view Ht Hh He Hs Hl).
  vm_compute. reflexivity.
Qed.

Section DropFacts.
Import Model OrderView.

Lemma id_is_refl id : id_is (Some id) id = true.
Proof. simpl. apply String.eqb_refl. Qed.

(** The drop of the payload of a block moves the blocks of that id. *)
Lemma drop_block_events newId e s rectTop ev :
  gridTop e = Some rectTop ->
  data e = blockPayload ev ->
  JS.truthy_string (e_id ev) = true ->
  let '(hour, minute) :=
    Grid.getTimeFromY HOUR_HEIGHT (startH s) (len s) (clientY e) rectTop in
  let '(newHour, newMinute) :=
    droppedStart (startH s) (len s) hour minute (JS.number_or (Some (e_duration ev)) 30) in
  schedEvents (handleScheduleDrop newId e s)
  = map (fun x => if String.eqb (e_id x) (e_id ev)
                  then moveTo newHour newMinute x else x) (schedEvents s).
Proof.
  intros Hg Hd Hid. unfold handleScheduleDrop. rewrite Hg, Hd.
  destruct (Grid.getTimeFromY _ _ _ _ _) as [hour minute].
  unfold blockPayload, dropCommit, is_type. simpl d_type. simpl d_blockId.
  simpl d_duration. cbn [String.eqb Ascii.eqb Bool.eqb andb].
  simpl JS.truthy_ostring. rewrite Hid.
  cbn [startH len setDragLabel setDropPreview].
  destruct (droppedStart _ _ _ _ _) as [newHour newMinute].
  reflexivity.
Qed.

End DropFacts.



(** A block of 7 minutes dropped on the last five minutes of the window
    ends two minutes after the visible hours. *)
Example drop_at_window_end :
  OrderView.droppedStart 9 8 16 55 7 = (16, 55).
Proof. vm_compute. reflexivity. Qed.

(* ===================================================================== *)
(** ** The schedule view: the editor *)
(* ===================================================================== *)




(* ===================================================================== *)
(** ** The schedule view: drops that name no current item *)
(* ===================================================================== *)

(** C10. A drop whose payload does not parse, or names a task that is in
    no working list or is done, or names a habit that is not in the list
    of habits, leaves the event store as it was: no event is made. *)
Theorem unresolved_drop_keeps_store
    (newId : string) (e : OrderView.DragEvent) (s : OrderView.State) :
  OrderView.Unresolved s (OrderView.data e) ->
  OrderView.schedEvents (OrderView.handleScheduleDrop newId e s)
    = OrderView.schedEvents s.
Proof.
  intros Hun. unfold OrderView.handleScheduleDrop.
  destruct (OrderView.gridTop e) as [rectTop|]; [|reflexivity].
  destruct (Grid.getTimeFromY _ _ _ _ _) as [hour minute].
  inversion Hun as [Hd | Hd | d Htype Hnone Hd | d Htype Hnone Hd].
  - reflexivity.
  - reflexivity.
  - unfold OrderView.dropCommit. rewrite Htype.
    replace (JS.find _ _) with (@None OrderView.PickerTask); [reflexivity|].
    symmetry. apply find_none_iff. intros t Ht.
    apply allTasks_In in Ht as [Hin Hopen].
    destruct (OrderView.id_is (OrderView.d_taskId d) (Model.t_id (OrderView.pt_task t)))
      eqn:Eid; [|reflexivity].
    apply (Hnone _ Hin) in Eid. congruence.
  - unfold OrderView.dropCommit.
    rewrite (is_type_exclusive d "habit" "task" Htype) by discriminate.
    rewrite Htype.
    replace (JS.find _ _) with (@None Model.Habit); [reflexivity|].
    symmetry. apply find_none_iff. intros h Hh. by apply Hnone.
Qed.

Lemma unresolved_drop_keeps_store_samples :
  OrderView.schedEvents
    (OrderView.handleScheduleDrop "new" (ViewSamples.at_14_15 OrderView.ParseError)
                                  ViewSamples.view)
    = OrderView.schedEvents ViewSamples.view /\
  OrderView.schedEvents
    (OrderView.handleScheduleDrop "new" (ViewSamples.at_14_15 (ViewSamples.taskPayload "a"))
                                  ViewSamples.view)
    = OrderView.schedEvents ViewSamples.view /\
  OrderView.schedEvents
    (OrderView.handleScheduleDrop "new" (ViewSamples.at_14_15 (ViewSamples.taskPayload "zz"))
                                  ViewSamples.view)
    = OrderView.schedEvents ViewSamples.view /\
  OrderView.schedEvents
    (OrderView.handleScheduleDrop "new" (ViewSamples.at_14_15 (ViewSamples.habitPayload "9"))
                                  ViewSamples.view)
    = OrderView.schedEvents ViewSamples.view.
Proof.
  repeat apply conj; apply unresolved_drop_keeps_store.
  - apply OrderView.UnresolvedParse.
  - apply OrderView.UnresolvedTask; [reflexivity|].
    intros t Hin Hid. simpl in Hin.
    destruct Hin as [<-|[<-|[<-|[]]]]; [reflexivity | discriminate | discriminate].
  - apply OrderView.UnresolvedTask; [reflexivity|].
    intros t Hin Hid. simpl in Hin.
    destruct Hin as [<-|[<-|[<-|[]]]]; discriminate.
  - apply OrderView.UnresolvedHabit; [reflexivity|].
    intros h Hin. simpl in Hin. destruct Hin as [<-|[<-|[]]]; reflexivity.
Defined.

(** A drop of a habit of the list makes its block. *)
Example drop_of_habit :
  OrderView.schedEvents
    (OrderView.handleScheduleDrop "new" (ViewSamples.at_14_15 (ViewSamples.habitPayload "3"))
                                  ViewSamples.view)
  = OrderView.schedEvents ViewSamples.view ++
    [Model.mkEvent "new" "Exercise" 14 15 15 (Some Model.THabit)
                   (Some (Model.HabitRef "3")) None].
Proof. vm_compute. reflexivity. Qed.


(* ===================================================================== *)
(** ** Calendar facts *)
(* ===================================================================== *)

Section CalendarFacts.
Import JSDate Calendar.

Lemma days_civil_round_trip z :
  days_from_civil (civil_from_days z).1.1 (civil_from_days z).1.2 (civil_from_days z).2 = z.
Proof.
  unfold civil_from_days.
  set (z' := z + 719468). set (era := z' / 146097).
  set (doe := z' - era * 146097).
  assert (Hdoe : 0 <= doe < 146097) by (unfold doe, era; zlia).
  set (yoe := (doe - doe / 1460 + doe / 36524 - doe / 146096) / 365).
  set (doy := doe - (365 * yoe + yoe / 4 - yoe / 100)).
  assert (Hb : 0 <= yoe <= 399 /\ 0 <= doy <= 365) by (unfold doy, yoe; zlia).
  destruct Hb as [Hyoe Hdoy].
  set (mp := (5 * doy + 2) / 153).
  assert (Hmp : 0 <= mp <= 11) by (unfold mp; zlia).
  cbn [fst snd]. unfold days_from_civil.
  destruct (mp <? 10) eqn:E10.
  - apply Z.ltb_lt in E10.
    replace (mp + 3 <=? 2) with false by (symmetry; apply Z.leb_gt; lia).
    replace ((yoe + era * 400) / 400) with era by zlia.
    replace (mp + 3 - 3) with mp by lia.
    unfold doy, doe, z'. zlia.
  - apply Z.ltb_ge in E10.
    replace (mp - 9 <=? 2) with true by (symmetry; apply Z.leb_le; lia).
    replace (yoe + era * 400 + 1 - 1) with (yoe + era * 400) by lia.
    replace ((yoe + era * 400) / 400) with era by zlia.
    replace (mp - 9 + 9) with mp by lia.
    unfold doy, doe, z'. zlia.
Qed.

Lemma jan4_jan1 y : days_from_civil y 1 4 = days_from_civil y 1 1 + 3.
Proof. unfold days_from_civil. simpl. lia. Qed.

Lemma localDay_startOfDay d : localDay (startOfDay d) = localDay d.
Proof. unfold startOfDay. unfold localDay, localMillis, msPerDay; cbn [time offset]. zlia. Qed.

Lemma localDay_addDays k d : localDay (addDays k d) = localDay d + k.
Proof. unfold localDay, localMillis, addDays, msPerDay; cbn [time offset]. zlia. Qed.

Lemma localDay_ofLocal off y m d : localDay (ofLocal off y m d) = days_from_civil y (m + 1) d.
Proof. unfold localDay, localMillis, ofLocal, msPerDay; cbn [time offset]. zlia. Qed.

Lemma thursdayOf_thursday day : (thursdayOf day + 4) mod 7 = 4.
Proof. unfold thursdayOf. zlia. Qed.


Lemma Math_round_seventh (n : Z) :
  JS.Math_round (inject_Z n / 7)%Q = (2 * n + 7) / 14.
Proof.
  unfold JS.Math_round. apply Qfloor_unique.
  - assert (H : 14 * ((2 * n + 7) / 14) <= 2 * n + 7) by zlia.
    apply inject_Z_le in H. rewrite inject_Z_plus, !inject_Z_mult in H.
    change (inject_Z 14) with 14%Q in H. change (inject_Z 2) with 2%Q in H.
    change (inject_Z 7) with 7%Q in H.
    unfold Qdiv. change (/ 7)%Q with (1 # 7)%Q. lra.
  - assert (H : 2 * n + 7 + 1 <= 14 * ((2 * n + 7) / 14) + 14) by zlia.
    apply inject_Z_le in H. rewrite !inject_Z_plus, !inject_Z_mult in H.
    change (inject_Z 14) with 14%Q in H. change (inject_Z 2) with 2%Q in H.
    change (inject_Z 7) with 7%Q in H. change (inject_Z 1) with 1%Q in H.
    unfold Qdiv. change (/ 7)%Q with (1 # 7)%Q. lra.
Qed.

Lemma Qceiling_seventh (n : Z) :
  Qceiling (inject_Z n / 7)%Q = (n + 6) / 7.
Proof.
  unfold Qceiling.
  rewrite (Qfloor_unique _ (- ((n + 6) / 7))); [lia| |].
  - assert (H : n <= 7 * ((n + 6) / 7)) by zlia.
    apply inject_Z_le in H. rewrite inject_Z_mult in H.
    change (inject_Z 7) with 7%Q in H. rewrite inject_Z_opp.
    unfold Qdiv. change (/ 7)%Q with (1 # 7)%Q. lra.
  - assert (H : 7 * ((n + 6) / 7) + 1 <= n + 7) by zlia.
    apply inject_Z_le in H. rewrite !inject_Z_plus, inject_Z_mult in H.
    change (inject_Z 7) with 7%Q in H. change (inject_Z 1) with 1%Q in H.
    rewrite inject_Z_opp.
    unfold Qdiv. change (/ 7)%Q with (1 # 7)%Q. lra.
Qed.

Lemma inject_Z_sub (a b : Z) : inject_Z (a - b) = (inject_Z a - inject_Z b)%Q.
Proof. unfold Z.sub. by rewrite inject_Z_plus, inject_Z_opp. Qed.

Lemma inject_Z_days (a : Z) :
  (inject_Z (a * msPerDay) / inject_Z msPerDay == inject_Z a)%Q.
Proof.
  rewrite inject_Z_mult. field. unfold msPerDay. intros H. discriminate H.
Qed.

Lemma hook_week d :
  Rollover.getWeekNumber d = weekOfThursday (thursdayOf (localDay d)).
Proof.
  unfold Rollover.getWeekNumber.
  set (date0 := startOfDay d).
  set (date := addDays _ date0).
  assert (HT : localDay date = thursdayOf (localDay d)).
  { unfold date. rewrite localDay_addDays. unfold getDay, date0.
    rewrite localDay_startOfDay. unfold thursdayOf. lia. }
  set (T := thursdayOf (localDay d)) in *.
  assert (HY : getFullYear date = (civil_from_days T).1.1)
    by (unfold getFullYear; by rewrite HT).
  rewrite HY. set (Y := (civil_from_days T).1.1).
  set (week1 := ofLocal (offset d) Y 0 4).
  assert (Hw1 : localDay week1 = days_from_civil Y 1 4)
    by (unfold week1; apply localDay_ofLocal).
  assert (Hdiff : time date - time week1 = (T - days_from_civil Y 1 4) * msPerDay).
  { assert (Htd : time date = T * msPerDay - offset d * 60000).
    { subst date date0 T. unfold addDays, getDay. rewrite localDay_startOfDay.
      unfold startOfDay, thursdayOf. cbn [time offset]. lia. }
    rewrite Htd. unfold week1, ofLocal. cbn [time offset]. change (0 + 1) with 1. lia. }
  rewrite Hdiff. unfold getDay. rewrite Hw1, jan4_jan1.
  set (J1 := days_from_civil Y 1 1).
  set (wd := ((J1 + 3 + 4) mod 7 + 6) mod 7).
  match goal with |- context [JS.Math_round ?x] =>
    assert (Hr : JS.Math_round x = JS.Math_round (inject_Z (T - (J1 + 3) - 3 + wd) / 7)%Q)
  end.
  { unfold JS.Math_round. apply Qfloor_comp. apply Qplus_comp; [|reflexivity].
    rewrite inject_Z_days, !inject_Z_plus, !inject_Z_sub, !inject_Z_plus.
    change (inject_Z 3) with 3%Q. field. }
  rewrite Hr.
  rewrite Math_round_seventh. unfold weekOfThursday. fold Y. fold J1.
  pose proof (thursdayOf_thursday (localDay d)) as HTh. fold T in HTh.
  unfold wd. clearbody T J1. zlia.
Qed.

Lemma app_week d :
  App.getWeekNumber d = weekOfThursday (thursdayOf (localDay d)).
Proof.
  unfold App.getWeekNumber, getFullYear, getMonth, getDate.
  replace ((civil_from_days (localDay d)).1.2 - 1 + 1)
    with ((civil_from_days (localDay d)).1.2) by lia.
  rewrite days_civil_round_trip.
  set (L := localDay d).
  set (r := (L + 4) mod 7).
  assert (HT : L + 4 - (if r =? 0 then 7 else r) = thursdayOf L).
  { unfold thursdayOf. fold r. destruct (Z.eqb_spec r 0); unfold r in *; zlia. }
  rewrite HT. set (T := thursdayOf L).
  set (J1 := days_from_civil (civil_from_days T).1.1 1 1).
  match goal with |- Qceiling ?x = _ =>
    assert (Hr : Qceiling x = Qceiling (inject_Z (T - J1 + 1) / 7)%Q)
  end.
  { apply Qceiling_comp.
    replace (T * msPerDay - J1 * msPerDay) with ((T - J1) * msPerDay) by lia.
    rewrite inject_Z_days, !inject_Z_plus, !inject_Z_sub. change (inject_Z 1) with 1%Q.
    field. }
  rewrite Hr, Qceiling_seventh. unfold weekOfThursday. fold J1. zlia.
Qed.

Lemma day_of_year_range z :
  0 <= z - days_from_civil (civil_from_days z).1.1 1 1 <= 365.
Proof.
  unfold civil_from_days.
  set (z' := z + 719468). set (era := z' / 146097).
  set (doe := z' - era * 146097).
  assert (Hdoe : 0 <= doe < 146097) by (unfold doe, era; zlia).
  set (yoe := (doe - doe / 1460 + doe / 36524 - doe / 146096) / 365).
  set (doy := doe - (365 * yoe + yoe / 4 - yoe / 100)).
  assert (Hb : 0 <= yoe <= 399 /\ 0 <= doy <= 365) by (unfold doy, yoe; zlia).
  destruct Hb as [Hyoe Hdoy].
  set (mp := (5 * doy + 2) / 153).
  assert (Hmp : 0 <= mp <= 11) by (unfold mp; zlia).
  cbn [fst snd]. unfold days_from_civil.
  change (1 <=? 2) with true. cbv iota. change ((153 * (1 + 9) + 2) / 5 + 1 - 1) with 306.
  assert (Hz : z = era * 146097 + doe - 719468) by (unfold doe, z'; lia).
  assert (Hdoe' : doe = 365 * yoe + yoe / 4 - yoe / 100 + doy) by (unfold doy; lia).
  destruct (mp <? 10) eqn:E10.
  - apply Z.ltb_lt in E10.
    replace (mp + 3 <=? 2) with false by (symmetry; apply Z.leb_gt; lia).
    assert (Hdoy' : doy <= 305) by (unfold mp in E10; zlia).
    destruct (Z.eq_dec yoe 0) as [H0|H0].
    + replace ((yoe + era * 400 - 1) / 400) with (era - 1) by zlia.
      rewrite Hz, Hdoe'. clearbody era doy yoe. subst yoe. zlia.
    + replace ((yoe + era * 400 - 1) / 400) with era by zlia.
      rewrite Hz, Hdoe'. clearbody era doy yoe. zlia.
  - apply Z.ltb_ge in E10.
    replace (mp - 9 <=? 2) with true by (symmetry; apply Z.leb_le; lia).
    assert (Hdoy' : 306 <= doy) by (unfold mp in E10; zlia).
    replace (yoe + era * 400 + 1 - 1) with (yoe + era * 400) by lia.
    replace ((yoe + era * 400) / 400) with era by zlia.
    rewrite Hz, Hdoe'. clearbody era doy yoe. zlia.
Qed.

End CalendarFacts.

(* ===================================================================== *)
(** ** Further properties of the daily reset *)
(* ===================================================================== *)



Section RetryFacts.
Import Model Rollover.

Lemma uncheck_idem h : uncheck (uncheck h) = uncheck h.
Proof. reflexivity. Qed.

Lemma openOf_idem l : openOf (openOf l) = openOf l.
Proof.
  unfold openOf. induction l as [|t l IH]; simpl; [reflexivity|].
  destruct (negb (t_done t)) eqn:E; simpl; [|exact IH]. by rewrite E, IH.
Qed.

Lemma doneOf_openOf l : doneOf (openOf l) = [].
Proof.
  unfold doneOf, openOf. induction l as [|t l IH]; simpl; [reflexivity|].
  destruct (t_done t) eqn:E; simpl; [exact IH|]. by rewrite E.
Qed.

Lemma slice_last_length {A} (n : nat) (l : list A) :
  (length (JS.slice_last n l) <= n)%nat.
Proof. unfold JS.slice_last. rewrite length_drop. lia. Qed.

Lemma archiveTasks_idem iso1 iso2 t :
  archiveTasks iso2 (archiveTasks iso1 t) = archiveTasks iso1 t.
Proof.
  unfold archiveTasks at 1. unfold completedTasks. cbn [primary today thisWeek later completed
    archiveTasks].
  rewrite !openOf_idem, !doneOf_openOf. simpl. rewrite app_nil_r.
  by rewrite slice_last_all by apply slice_last_length.
Qed.

End RetryFacts.

(** X2. The updates of the day part can be run again, at any later
    instant, on the state they produced: nothing changes.  No habit is
    checked, no event is left to purge, and no done task is left in a
    working list, so the archive gets nothing more. *)
Theorem day_updates_idempotent (clock1 clock2 : JSDate.Date) (st : Rollover.AppState) :
  Rollover.runUi clock2 (Rollover.dayUpdates true)
    (Rollover.runUi clock1 (Rollover.dayUpdates true) st)
  = Rollover.runUi clock1 (Rollover.dayUpdates true) st.
Proof.
  rewrite !runUi_day. cbn [Rollover.habits Rollover.schedEvents Rollover.tasks].
  rewrite map_map, purgeEvents_idem, archiveTasks_idem. reflexivity.
Qed.

(* ===================================================================== *)
(** ** The week number *)
(* ===================================================================== *)

(** X3. The week number of the hook and the week number of the main
    component are the same number for every date: both are the week of
    the year of the Thursday of the date's week. *)
Theorem week_number_implementations_agree (d : JSDate.Date) :
  Rollover.getWeekNumber d = App.getWeekNumber d /\
  Rollover.getWeekNumber d
    = Calendar.weekOfThursday (Calendar.thursdayOf (JSDate.localDay d)).
Proof. split; [by rewrite hook_week, app_week | apply hook_week]. Qed.

(** X4. The week number is between 1 and 53. *)
Theorem week_number_range (d : JSDate.Date) :
  1 <= Rollover.getWeekNumber d <= 53.
Proof.
  rewrite hook_week. unfold Calendar.weekOfThursday.
  pose proof (day_of_year_range (Calendar.thursdayOf (JSDate.localDay d))) as H.
  zlia.
Qed.

(** X5. Two dates of the same week, Monday to Sunday, have the same week
    number, so after a check the week part of a later check of that week
    does not fire. *)
Theorem week_number_constant_in_week (d1 d2 : JSDate.Date) :
  Calendar.mondayOf (JSDate.localDay d1) = Calendar.mondayOf (JSDate.localDay d2) ->
  Rollover.getWeekNumber d1 = Rollover.getWeekNumber d2 /\
  forall w, Rollover.weekStale d2 (Rollover.tick d1 w) = false.
Proof.
  intros Hmon.
  assert (Hweek : Rollover.getWeekNumber d1 = Rollover.getWeekNumber d2).
  { rewrite !hook_week. f_equal. unfold Calendar.thursdayOf, Calendar.mondayOf in *. lia. }
  split; [exact Hweek|]. intros w.
  unfold Rollover.tick.
  destruct (render_stale d1 d2 (Rollover.performDailyReset d1 w)) as [_ ->].
  destruct (performDailyReset_done d1 w) as [_ Hdone].
  unfold Rollover.weekStale in *. by rewrite <- Hweek.
Qed.

Lemma week_number_constant_in_week_sample :
  Rollover.getWeekNumber Samples.jan20 = Rollover.getWeekNumber Samples.jan21.
Proof.
  apply (week_number_constant_in_week Samples.jan20 Samples.jan21).
  vm_compute. reflexivity.
Defined.

(* ===================================================================== *)
(** ** Further properties of the grid *)
(* ===================================================================== *)

(** X6. Wherever the pointer is, above, on or below the grid, and
    whatever the height of an hour, the time that [getTimeFromY] gives is
    an hour of the visible window and a minute among 0, 5, ..., 55. *)
Theorem pointer_time_in_window (HH y rectTop : Q) (startH len : Z) :
  1 <= len ->
  let t := Grid.getTimeFromY HH startH len y rectTop in
  startH <= t.1 <= startH + len - 1 /\ 0 <= t.2 <= 55 /\ t.2 mod 5 = 0.
Proof.
  intros Hlen t. subst t.
  pose proof (getTimeFromY_range HH y rectTop startH len Hlen) as H.
  destruct (Grid.getTimeFromY HH startH len y rectTop). exact H.
Qed.

Lemma pointer_time_in_window_sample :
  let t := Grid.getTimeFromY OrderView.HOUR_HEIGHT 9 8 (-40) 100 in
  9 <= t.1 <= 16 /\ 0 <= t.2 <= 55 /\ t.2 mod 5 = 0.
Proof. apply (pointer_time_in_window OrderView.HOUR_HEIGHT (-40) 100 9 8). lia. Defined.

Section EdgeFacts.

Lemma clamped_cases (adj lim : Q) :
  let c := JS.Qmax 0 (JS.Qmin adj lim) in
  ((adj <= lim)%Q /\ (0 <= adj)%Q /\ c = adj) \/
  ((lim < adj)%Q /\ (0 <= lim)%Q /\ c = lim) \/
  (((adj <= lim)%Q /\ (adj < 0)%Q \/ (lim < adj)%Q /\ (lim < 0)%Q) /\ c = 0%Q).
Proof.
  intros c. subst c.
  destruct (Qmin_cases adj lim) as [[H1 ->]|[H1 ->]].
  - destruct (Qmax_cases 0 adj) as [[H2 ->]|[H2 ->]]; [left | right; right]; tauto.
  - destruct (Qmax_cases 0 lim) as [[H2 ->]|[H2 ->]]; [right; left | right; right]; tauto.
Qed.

(** The time of a number of minutes of the window, as the tail of
    [getTimeFromY] computes it. *)
Lemma time_of_total (HH y rectTop : Q) (startH len k j : Z) (total : Q) :
  (let relY := (y - rectTop)%Q in
   let adjustedY := JS.Qmax 0 (relY - Grid.GRID_TOP_PADDING)%Q in
   let clampedY := JS.Qmax 0 (JS.Qmin adjustedY (inject_Z len * HH - 1)%Q) in
   (clampedY / HH * 60 == total)%Q) ->
  (inject_Z (60 * k) <= total)%Q -> (total < inject_Z (60 * k) + 60)%Q ->
  (inject_Z (60 * k + 5 * j) - (5 # 2) <= total)%Q ->
  (total < inject_Z (60 * k + 5 * j) + (5 # 2))%Q ->
  Grid.getTimeFromY HH startH len y rectTop
  = (let '(h, m) := if 5 * j >=? 60
                    then (Z.min (startH + k + 1) (startH + len - 1), 0)
                    else (startH + k, 5 * j) in
     (Z.max startH (Z.min h (startH + len - 1)), Z.max 0 (Z.min m 55))).
Proof.
  intros Htot T1 T2 T3 T4. cbv zeta in Htot.
  unfold Grid.getTimeFromY.
  set (c := JS.Qmax 0 (JS.Qmin _ _)) in *.
  set (tm := (c / HH * 60)%Q) in *.
  rewrite <- Htot in T1, T2, T3, T4.
  destruct (snap_total tm k j T1 T2 T3 T4) as [-> ->].
  replace (j * 5) with (5 * j) by lia. reflexivity.
Qed.

End EdgeFacts.

(** X7. A pointer at or above the first pixel of the grid's content gives
    the first visible hour, minute 0.  A pointer at or below the last
    pixel gives the last visible hour, minute 0: the last two and a half
    minutes of the window round up to the next hour, the hour is held at
    the last one and the minute stays 0 (for a height of an hour of 24
    pixels or more, as the 64 of the view). *)
Theorem pointer_outside_grid (HH y rectTop : Q) (startH len : Z) :
  1 <= len -> (24 <= HH)%Q ->
  ((y - rectTop <= Grid.GRID_TOP_PADDING)%Q ->
   Grid.getTimeFromY HH startH len y rectTop = (startH, 0)) /\
  ((inject_Z len * HH - 1 <= y - rectTop - Grid.GRID_TOP_PADDING)%Q ->
   Grid.getTimeFromY HH startH len y rectTop = (startH + len - 1, 0)).
Proof.
  intros Hlen HHH.
  assert (HHpos : ~ (HH == 0)%Q) by lra.
  assert (Hl1 : (1 <= inject_Z len)%Q) by (apply (inject_Z_le 1 len); lia).
  assert (Hlim : (0 <= inject_Z len * HH - 1)%Q) by nra.
  split; intros Hy.
  - rewrite (time_of_total HH y rectTop startH len 0 0 0).
    + simpl. f_equal; lia.
    + cbv zeta.
      set (adj := JS.Qmax 0 (_ - Grid.GRID_TOP_PADDING)%Q).
      assert (Hadj : (adj == 0)%Q).
      { unfold adj.
        destruct (Qmax_cases 0 (y - rectTop - Grid.GRID_TOP_PADDING)%Q)
          as [[H ->]|[H ->]]; lra. }
      destruct (clamped_cases adj (inject_Z len * HH - 1)%Q)
        as [(_ & _ & ->)|[(H1 & _ & ->)|( _ & ->)]].
      * rewrite Hadj. field. exact HHpos.
      * lra.
      * field. exact HHpos.
    + change (inject_Z (60 * 0)) with 0%Q. lra.
    + change (inject_Z (60 * 0)) with 0%Q. lra.
    + change (inject_Z (60 * 0 + 5 * 0)) with 0%Q. lra.
    + change (inject_Z (60 * 0 + 5 * 0)) with 0%Q. lra.
  - set (u := (1 / HH)%Q).
    assert (Hu : (u * HH == 1)%Q) by (unfold u; field; exact HHpos).
    assert (Hu1 : (0 < u)%Q) by nra.
    assert (Hu2 : (u <= 1 # 24)%Q) by nra.
    assert (Hk : (inject_Z (len - 1) == inject_Z len - 1)%Q)
      by (rewrite inject_Z_sub; reflexivity).
    rewrite (time_of_total HH y rectTop startH len (len - 1) 12
               (60 * inject_Z len - 60 * u)%Q).
    + simpl. f_equal; lia.
    + cbv zeta.
      set (adj := JS.Qmax 0 (_ - Grid.GRID_TOP_PADDING)%Q).
      assert (Hadj : (inject_Z len * HH - 1 <= adj)%Q).
      { unfold adj.
        destruct (Qmax_cases 0 (y - rectTop - Grid.GRID_TOP_PADDING)%Q)
          as [[H ->]|[H ->]]; lra. }
      destruct (clamped_cases adj (inject_Z len * HH - 1)%Q)
        as [(H1 & _ & ->)|[(H1 & _ & ->)|(H1 & ->)]].
      * assert (Heq : (adj == inject_Z len * HH - 1)%Q) by lra.
        rewrite Heq. unfold u. field. exact HHpos.
      * unfold u. field. exact HHpos.
      * lra.
    + rewrite inject_Z_mult, Hk. change (inject_Z 60) with 60%Q. lra.
    + rewrite inject_Z_mult, Hk. change (inject_Z 60) with 60%Q. lra.
    + rewrite inject_Z_plus, !inject_Z_mult, Hk.
      change (inject_Z 60) with 60%Q. change (inject_Z 5) with 5%Q.
      change (inject_Z 12) with 12%Q. lra.
    + rewrite inject_Z_plus, !inject_Z_mult, Hk.
      change (inject_Z 60) with 60%Q. change (inject_Z 5) with 5%Q.
      change (inject_Z 12) with 12%Q. lra.
Qed.

Lemma pointer_outside_grid_sample :
  Grid.getTimeFromY OrderView.HOUR_HEIGHT 9 8 90 100 = (9, 0) /\
  Grid.getTimeFromY OrderView.HOUR_HEIGHT 9 8 2000 100 = (16, 0).
Proof.
  destruct (pointer_outside_grid OrderView.HOUR_HEIGHT 90 100 9 8) as [Habove _];
    [lia | vm_compute; discriminate |].
  destruct (pointer_outside_grid OrderView.HOUR_HEIGHT 2000 100 9 8) as [_ Hbelow];
    [lia | vm_compute; discriminate |].
  split; [apply Habove | apply Hbelow]; vm_compute; discriminate.
Defined.

(** X8. The grid draws the hours from the first visible hour up to,
    not including, the first hour past the window or midnight, whichever
    comes first; when the window ends by midnight, every time that the
    pointer can give is in one of the hours drawn. *)
Theorem hours_drawn (startH len : Z) :
  (forall h, In h (Editor.hours startH len) <->
             startH <= h < startH + len /\ h < 24) /\
  (1 <= len -> startH + len <= 24 ->
   forall HH y rectTop,
     In (Grid.getTimeFromY HH startH len y rectTop).1 (Editor.hours startH len)).
Proof.
  assert (Hin : forall h, In h (Editor.hours startH len) <->
                          startH <= h < startH + len /\ h < 24).
  { intros h. unfold Editor.hours. rewrite List.filter_In, in_map_iff. split.
    - intros [(i & <- & Hi) Hlt]. apply in_seq in Hi. apply Z.ltb_lt in Hlt. lia.
    - intros [Hr Hlt]. split; [|by apply Z.ltb_lt].
      exists (Z.to_nat (h - startH)). split; [lia|]. apply in_seq. lia. }
  split; [exact Hin|]. intros Hlen Hend HH y rectTop. apply Hin.
  pose proof (getTimeFromY_range HH y rectTop startH len Hlen) as H.
  destruct (Grid.getTimeFromY HH startH len y rectTop) as [hour minute].
  simpl. lia.
Qed.

Lemma hours_drawn_sample :
  Editor.hours 9 8 = [9; 10; 11; 12; 13; 14; 15; 16] /\
  Editor.hours 20 8 = [20; 21; 22; 23] /\
  In (Grid.getTimeFromY OrderView.HOUR_HEIGHT 9 8 442 100).1 (Editor.hours 9 8).
Proof.
  destruct (hours_drawn 9 8) as [_ Hin].
  split; [reflexivity|]. split; [reflexivity|]. apply Hin; lia.
Defined.

(* ===================================================================== *)
(** ** Further properties of drags and drops *)
(* ===================================================================== *)

Section PreviewFacts.
Import Model OrderView.


End PreviewFacts.



Section ItemDropFacts.
Import Model OrderView.

Lemma NoDup_map_inj {A B} (f : A -> B) (l : list A) x y :
  List.NoDup (map f l) -> In x l -> In y l -> f x = f y -> x = y.
Proof.
  induction l as [|a l IH]; intros Hnd Hx Hy Hf; [destruct Hx|].
  simpl in Hnd. apply List.NoDup_cons_iff in Hnd as [Hnot Hnd].
  destruct Hx as [->|Hx], Hy as [->|Hy].
  - reflexivity.
  - exfalso. apply Hnot. rewrite Hf. by apply in_map.
  - exfalso. apply Hnot. rewrite <- Hf. by apply in_map.
  - by apply IH.
Qed.

(** The tasks of the four lists with their list, before the done ones are
    taken out. *)
Lemma allTasks_tagged ts :
  allTasks ts
  = List.filter (fun t => negb (t_done (pt_task t)))
      (map (fun t => mkPicker t Primary) (primary ts) ++
       map (fun t => mkPicker t Today) (today ts) ++
       map (fun t => mkPicker t ThisWeek) (thisWeek ts) ++
       map (fun t => mkPicker t Later) (later ts)).
Proof. reflexivity. Qed.

Lemma tagged_ids ts :
  map (fun p => t_id (pt_task p))
      (map (fun t => mkPicker t Primary) (primary ts) ++
       map (fun t => mkPicker t Today) (today ts) ++
       map (fun t => mkPicker t ThisWeek) (thisWeek ts) ++
       map (fun t => mkPicker t Later) (later ts))
  = map t_id (Rollover.working ts).
Proof. unfold Rollover.working. rewrite !map_app, !map_map. reflexivity. Qed.

Lemma tagged_In ts t l :
  In t (App.getList l ts) ->
  In (mkPicker t l)
     (map (fun t => mkPicker t Primary) (primary ts) ++
      map (fun t => mkPicker t Today) (today ts) ++
      map (fun t => mkPicker t ThisWeek) (thisWeek ts) ++
      map (fun t => mkPicker t Later) (later ts)).
Proof.
  intros Hin. rewrite !in_app_iff, !in_map_iff.
  destruct l; simpl in Hin.
  - left. by exists t.
  - right. left. by exists t.
  - right. right. left. by exists t.
  - right. right. right. by exists t.
Qed.

(** With distinct ids, the picker finds the task of an id in its list. *)
Lemma allTasks_find ts t l :
  List.NoDup (map t_id (Rollover.working ts)) ->
  In t (App.getList l ts) -> t_done t = false ->
  JS.find (fun p => id_is (Some (t_id t)) (t_id (pt_task p))) (allTasks ts)
  = Some (mkPicker t l).
Proof.
  intros Hnd Hin Hopen. unfold JS.find.
  destruct (List.find _ (allTasks ts)) as [p|] eqn:E.
  - apply List.find_some in E as [Hp Hid]. f_equal.
    rewrite allTasks_tagged in Hp. apply List.filter_In in Hp as [Hp _].
    simpl in Hid. apply String.eqb_eq in Hid.
    rewrite <- tagged_ids in Hnd.
    apply (NoDup_map_inj _ _ p (mkPicker t l) Hnd Hp (tagged_In ts t l Hin)).
    simpl. congruence.
  - exfalso.
    pose proof (List.find_none _ _ E (mkPicker t l)) as Hnone.
    rewrite allTasks_tagged, List.filter_In in Hnone. simpl in Hnone.
    rewrite String.eqb_refl in Hnone.
    assert (false = true -> False) by discriminate.
    rewrite Hopen in Hnone. simpl in Hnone.
    specialize (Hnone (conj (tagged_In ts t l Hin) eq_refl)). discriminate.
Qed.


End ItemDropFacts.





Section SurvivorFacts.
Import Model OrderView.

Lemma purge_app evs evs' :
  Rollover.purgeEvents (evs ++ evs') = Rollover.purgeEvents evs ++ Rollover.purgeEvents evs'.
Proof. apply List.filter_app. Qed.

Lemma purge_move_ids (f : SchedEvent -> SchedEvent) evs :
  (forall ev, e_id (f ev) = e_id ev /\ e_persistent (f ev) = e_persistent ev) ->
  map e_id (Rollover.purgeEvents (map f evs)) = map e_id (Rollover.purgeEvents evs).
Proof.
  intros Hf. unfold Rollover.purgeEvents.
  induction evs as [|ev evs IH]; simpl; [reflexivity|].
  destruct (Hf ev) as [Hid Hp]. rewrite Hp.
  destruct (JS.truthy_obool (e_persistent ev)); simpl; [by rewrite Hid, IH | exact IH].
Qed.

End SurvivorFacts.

(** X12. No drop changes which events the next day rollover keeps: a
    block made by a drop has no [persistent] field and is purged with the
    other non-persistent ones, and a block moved by a drop keeps its
    flag.  The ids of the events that survive the purge are the same
    before and after any drop. *)
Theorem drop_keeps_rollover_survivors
    (newId : string) (e : OrderView.DragEvent) (s : OrderView.State) :
  map Model.e_id
      (Rollover.purgeEvents (OrderView.schedEvents (OrderView.handleScheduleDrop newId e s)))
  = map Model.e_id (Rollover.purgeEvents (OrderView.schedEvents s)) /\
  (forall ev, In ev (OrderView.schedEvents (OrderView.handleScheduleDrop newId e s)) ->
              ~ In ev (OrderView.schedEvents s) ->
              Model.e_persistent ev = None \/
              exists ev0, In ev0 (OrderView.schedEvents s) /\
                          Model.e_id ev = Model.e_id ev0 /\
                          Model.e_persistent ev = Model.e_persistent ev0).
Proof.
  unfold OrderView.handleScheduleDrop.
  destruct (OrderView.gridTop e) as [rectTop|]; [|split; [reflexivity | tauto]].
  destruct (Grid.getTimeFromY _ _ _ _ _) as [hour minute].
  destruct (OrderView.data e) as [| |d]; try (split; [reflexivity | tauto]).
  unfold OrderView.dropCommit.
  cbn [OrderView.tasks OrderView.habits OrderView.startH OrderView.len
       OrderView.setDragLabel OrderView.setDropPreview].
  destruct (OrderView.is_type d "task").
  { destruct (JS.find _ _) as [task|]; [|split; [reflexivity | tauto]].
    cbn [OrderView.schedEvents OrderView.setSchedEvents]. split.
    - rewrite purge_app. simpl. by rewrite app_nil_r.
    - intros ev Hin Hnew. apply in_app_or in Hin as [Hin|[<-|[]]]; [tauto | by left]. }
  destruct (OrderView.is_type d "habit").
  { destruct (JS.find _ _) as [habit|]; [|split; [reflexivity | tauto]].
    cbn [OrderView.schedEvents OrderView.setSchedEvents]. split.
    - rewrite purge_app. simpl. by rewrite app_nil_r.
    - intros ev Hin Hnew. apply in_app_or in Hin as [Hin|[<-|[]]]; [tauto | by left]. }
  destruct (OrderView.is_type d "scheduleBlock" && JS.truthy_ostring (OrderView.d_blockId d));
    [|split; [reflexivity | tauto]].
  destruct (OrderView.droppedStart _ _ _ _ _) as [newHour newMinute].
  cbn [OrderView.schedEvents OrderView.setSchedEvents]. split.
  - apply purge_move_ids. intros ev.
    destruct (OrderView.id_is (OrderView.d_blockId d) (Model.e_id ev)); split; reflexivity.
  - intros ev Hin Hnew. right. apply in_map_iff in Hin as (ev0 & Hev & Hin0).
    exists ev0. split; [exact Hin0|].
    destruct (OrderView.id_is (OrderView.d_blockId d) (Model.e_id ev0));
      subst ev; split; reflexivity.
Qed.

Section MoveFacts.
Import Model OrderView.

Lemma droppedStart_in_window (startH len hour minute duration : Z) :
  1 <= len -> startH <= hour <= startH + len - 1 -> 0 <= minute <= 55 ->
  let start := droppedStart startH len hour minute duration in
  startH <= start.1 <= startH + len - 1 /\ 0 <= start.2 <= 55 /\ start.2 mod 5 = 0.
Proof.
  intros Hlen Hh Hm start. subst start. rewrite droppedStart_Z. cbv zeta. cbn [fst snd].
  set (c := Z.max 0 _).
  assert (Hc : 0 <= c <= (len - 1) * 60 + 55) by (unfold c; lia).
  assert (Hcm : 0 <= c mod 60 <= 59) by zlia.
  destruct (snapToIncrement_bounds (c mod 60) Hcm) as (Hs1 & _ & _).
  split; [zlia|]. split; [exact Hs1|].
  rewrite snapToIncrement_Z.
  destruct ((2 * (c mod 60) + 5) / 10 * 5 >=? 60); [reflexivity|].
  apply Z.mod_mul. lia.
Qed.

End MoveFacts.

(** X13. A block moved by a drop lands on an hour of the visible window
    and on a minute among 0, 5, ..., 55, whatever its duration, so the
    grid still draws it. *)
Theorem moved_block_stays_visible
    (newId : string) (e : OrderView.DragEvent) (s : OrderView.State)
    (rectTop : Q) (ev : Model.SchedEvent) :
  OrderView.gridTop e = Some rectTop ->
  OrderView.data e = OrderView.blockPayload ev ->
  JS.truthy_string (Model.e_id ev) = true ->
  1 <= OrderView.len s ->
  let after := OrderView.handleScheduleDrop newId e s in
  forall moved, In moved (OrderView.schedEvents after) ->
                Model.e_id moved = Model.e_id ev ->
    OrderView.startH s <= Model.e_hour moved <= OrderView.startH s + OrderView.len s - 1 /\
    0 <= Model.e_minute moved <= 55 /\
    Model.e_minute moved mod 5 = 0 /\
    In moved (Editor.visibleEvents after).
Proof.
  intros Hg Hd Hid Hlen after moved Hin Hsame.
  pose proof (drop_block_events newId e s rectTop ev Hg Hd Hid) as Hdrop.
  pose proof (getTimeFromY_range OrderView.HOUR_HEIGHT (OrderView.clientY e) rectTop
                (OrderView.startH s) (OrderView.len s) Hlen) as Hrange.
  destruct (Grid.getTimeFromY _ _ _ _ _) as [hour minute].
  destruct Hrange as (Hh & Hm & _).
  pose proof (droppedStart_in_window (OrderView.startH s) (OrderView.len s) hour minute
                (JS.number_or (Some (Model.e_duration ev)) 30) Hlen Hh Hm) as Hwin.
  destruct (OrderView.droppedStart _ _ _ _ _) as [newHour newMinute].
  cbn [fst snd] in Hwin.
  assert (Hmoved : Model.e_hour moved = newHour /\ Model.e_minute moved = newMinute).
  { fold after in Hdrop. rewrite Hdrop in Hin.
    apply in_map_iff in Hin as (x & Hx & _).
    destruct (String.eqb_spec (Model.e_id x) (Model.e_id ev)) as [Heq|Hne].
    - subst moved. split; reflexivity.
    - subst moved. contradiction. }
  destruct Hmoved as [Hh' Hm']. rewrite Hh', Hm'.
  repeat split; try tauto.
  unfold Editor.visibleEvents. apply List.filter_In. split; [exact Hin|].
  assert (Hs : OrderView.startH after = OrderView.startH s /\
               OrderView.len after = OrderView.len s).
  { subst after. unfold OrderView.handleScheduleDrop. rewrite Hg, Hd.
    destruct (Grid.getTimeFromY _ _ _ _ _) as [h0 m0].
    unfold OrderView.blockPayload, OrderView.dropCommit, OrderView.is_type.
    cbn [OrderView.d_type OrderView.d_blockId String.eqb Ascii.eqb Bool.eqb andb].
    simpl JS.truthy_ostring. rewrite Hid.
    destruct (OrderView.droppedStart _ _ _ _ _). split; reflexivity. }
  destruct Hs as [-> ->]. rewrite Hh'.
  apply andb_true_intro. split; [apply Z.leb_le | apply Z.ltb_lt]; lia.
Qed.

Lemma moved_block_stays_visible_sample :
  In (Model.mkEvent "ev2" "Lunch" 16 0 60 (Some Model.TEvent) None (Some false))
     (Editor.visibleEvents
        (OrderView.handleScheduleDrop "unused"
           (OrderView.mkDragEvent 40 5000 (Some 100%Q) true
                                  (OrderView.blockPayload Samples.lunch))
           ViewSamples.view)).
Proof.
  apply (moved_block_stays_visible "unused"
           (OrderView.mkDragEvent 40 5000 (Some 100%Q) true
                                  (OrderView.blockPayload Samples.lunch))
           ViewSamples.view 100 Samples.lunch).
  - reflexivity.
  - reflexivity.
  - reflexivity.
  - vm_compute. discriminate.
  - vm_compute. right. left. reflexivity.
  - reflexivity.
Defined.

(* ===================================================================== *)
(** ** Further properties of the editor *)
(* ===================================================================== *)

(** X14. Deleting takes two presses.  From an editor that is not armed,
    the first press of Delete only arms it: the store and the modal are
    what they were.  The second press removes from the store the events
    with the id of the edited event, and only them, keeps the order of
    the others, closes the modal and disarms. *)
Theorem delete_takes_two_presses
    (s : OrderView.State) (event : Model.SchedEvent) (x y : Q) :
  OrderView.confirmDelete s = false ->
  OrderView.popover s = Some (OrderView.PopEdit event x y) ->
  let once := Editor.deleteEvent s in
  let twice := Editor.deleteEvent once in
  OrderView.schedEvents once = OrderView.schedEvents s /\
  OrderView.popover once = OrderView.popover s /\
  OrderView.confirmDelete once = true /\
  OrderView.schedEvents twice
    = List.filter (fun e => negb (String.eqb (Model.e_id e) (Model.e_id event)))
                  (OrderView.schedEvents s) /\
  (forall e, In e (OrderView.schedEvents twice) <->
             In e (OrderView.schedEvents s) /\ Model.e_id e <> Model.e_id event) /\
  OrderView.popover twice = None /\
  OrderView.confirmDelete twice = false.
Proof.
  intros Hc Hp once twice.
  assert (Honce : once = Editor.setConfirmDelete true s).
  { subst once. unfold Editor.deleteEvent. by rewrite Hc. }
  assert (Htwice : twice
            = Editor.setConfirmDelete false
                (OrderView.setPopover None
                   (OrderView.setSchedEvents
                      (List.filter (fun e => negb (String.eqb (Model.e_id e) (Model.e_id event))))
                      (Editor.setConfirmDelete true s)))).
  { subst twice. rewrite Honce. unfold Editor.deleteEvent at 1.
    cbn [OrderView.confirmDelete Editor.setConfirmDelete negb OrderView.popover].
    by rewrite Hp. }
  rewrite Htwice, Honce.
  cbn [OrderView.schedEvents OrderView.popover OrderView.confirmDelete
       OrderView.setSchedEvents OrderView.setPopover Editor.setConfirmDelete].
  split; [reflexivity|]. split; [reflexivity|]. split; [reflexivity|].
  split; [reflexivity|]. split; [|split; reflexivity].
  intros e. rewrite List.filter_In, negb_true_iff, String.eqb_neq. tauto.
Qed.

Lemma delete_takes_two_presses_sample :
  OrderView.schedEvents (Editor.deleteEvent (ViewSamples.editing ""))
    = [Samples.standup; Samples.lunch] /\
  OrderView.schedEvents (Editor.deleteEvent (Editor.deleteEvent (ViewSamples.editing "")))
    = [Samples.lunch].
Proof.
  destruct (delete_takes_two_presses (ViewSamples.editing "") Samples.standup 10 20)
    as (Honce & _ & _ & Htwice & _); [reflexivity | reflexivity |].
  split; [rewrite Honce; reflexivity | rewrite Htwice; reflexivity].
Defined.

Section BlankFacts.



End BlankFacts.





Section IdFacts.
Import Model OrderView.

Lemma NoDup_filter_ids (p : SchedEvent -> bool) evs :
  List.NoDup (map e_id evs) -> List.NoDup (map e_id (List.filter p evs)).
Proof.
  induction evs as [|ev evs IH]; simpl; [constructor|].
  intros Hnd. apply List.NoDup_cons_iff in Hnd as [Hnot Hnd].
  destruct (p ev); simpl; [|by apply IH].
  constructor; [|by apply IH].
  intros Hin. apply Hnot. apply in_map_iff in Hin as (x & Hx & Hin).
  apply List.filter_In in Hin as [Hin _]. apply in_map_iff. by exists x.
Qed.

Lemma NoDup_snoc_ids evs ev :
  List.NoDup (map e_id evs) -> ~ In (e_id ev) (map e_id evs) ->
  List.NoDup (map e_id (evs ++ [ev])).
Proof.
  intros Hnd Hnew. rewrite map_app. simpl.
  apply List.NoDup_app; repeat split.
  - exact Hnd.
  - constructor; [intros []|constructor].
  - intros x Hx [<-|[]]. contradiction.
Qed.

Lemma map_ids_same (f : SchedEvent -> SchedEvent) evs :
  (forall ev, e_id (f ev) = e_id ev) -> map e_id (map f evs) = map e_id evs.
Proof. intros Hf. rewrite map_map. apply map_ext. exact Hf. Qed.

End IdFacts.

(** X17. The ids of the events stay distinct: when they are distinct and
    the id drawn for a new event is not among them, they are distinct
    after a drop, after a save, after a delete and after the purge of a
    day rollover. *)
Theorem event_ids_stay_distinct
    (newId : string) (e : OrderView.DragEvent) (s : OrderView.State) :
  List.NoDup (map Model.e_id (OrderView.schedEvents s)) ->
  ~ In newId (map Model.e_id (OrderView.schedEvents s)) ->
  List.NoDup (map Model.e_id (OrderView.schedEvents (OrderView.handleScheduleDrop newId e s))) /\
  List.NoDup (map Model.e_id (OrderView.schedEvents (OrderView.saveEvent newId s))) /\
  List.NoDup (map Model.e_id (OrderView.schedEvents (Editor.deleteEvent s))) /\
  List.NoDup (map Model.e_id (Rollover.purgeEvents (OrderView.schedEvents s))).
Proof.
  intros Hnd Hnew. repeat apply conj.
  - unfold OrderView.handleScheduleDrop.
    destruct (OrderView.gridTop e) as [rectTop|]; [|exact Hnd].
    destruct (Grid.getTimeFromY _ _ _ _ _) as [hour minute].
    destruct (OrderView.data e) as [| |d]; try exact Hnd.
    unfold OrderView.dropCommit.
    cbn [OrderView.tasks OrderView.habits OrderView.startH OrderView.len
         OrderView.setDragLabel OrderView.setDropPreview].
    destruct (OrderView.is_type d "task").
    { destruct (JS.find _ _); [|exact Hnd]. by apply NoDup_snoc_ids. }
    destruct (OrderView.is_type d "habit").
    { destruct (JS.find _ _); [|exact Hnd]. by apply NoDup_snoc_ids. }
    destruct (OrderView.is_type d "scheduleBlock" && JS.truthy_ostring (OrderView.d_blockId d));
      [|exact Hnd].
    destruct (OrderView.droppedStart _ _ _ _ _).
    cbn [OrderView.schedEvents OrderView.setSchedEvents].
    rewrite map_ids_same; [exact Hnd|].
    intros ev. by destruct (OrderView.id_is _ _).
  - unfold OrderView.saveEvent.
    destruct (OrderView.resolveTitle s) as [title itemRef].
    destruct (negb (JS.truthy_string title)); [exact Hnd|].
    destruct (OrderView.popover s) as [[x y|event x y]|]; [| |exact Hnd].
    + by apply NoDup_snoc_ids.
    + cbn [OrderView.schedEvents OrderView.setSchedEvents OrderView.setPopover].
      rewrite map_ids_same; [exact Hnd|].
      intros ev. by destruct (String.eqb _ _).
  - unfold Editor.deleteEvent.
    destruct (negb (OrderView.confirmDelete s)); [exact Hnd|].
    destruct (OrderView.popover s) as [[x y|event x y]|]; try exact Hnd.
    by apply NoDup_filter_ids.
  - by apply NoDup_filter_ids.
Qed.

Lemma event_ids_stay_distinct_sample :
  List.NoDup (map Model.e_id
    (OrderView.schedEvents
       (OrderView.handleScheduleDrop "new"
          (ViewSamples.at_14_15 (ViewSamples.taskPayload "b")) ViewSamples.view))).
Proof.
  destruct (event_ids_stay_distinct "new"
              (ViewSamples.at_14_15 (ViewSamples.taskPayload "b")) ViewSamples.view)
    as [Hdrop _].
  - vm_compute. repeat constructor; simpl; intuition discriminate.
  - vm_compute. intuition discriminate.
  - exact Hdrop.
Defined.

Ltac zcases :=
  repeat match goal with
    | |- context [?a =? ?b] => destruct (Z.eqb_spec a b)
    | |- context [?a >? ?b] => destruct (Z.gtb_spec a b)
    | |- context [?a <=? ?b] => destruct (Z.leb_spec a b)
    | |- context [?a <? ?b] => destruct (Z.ltb_spec a b)
    | H : context [?a =? ?b] |- _ => destruct (Z.eqb_spec a b)
    | H : context [?a >? ?b] |- _ => destruct (Z.gtb_spec a b)
    | H : context [?a <=? ?b] |- _ => destruct (Z.leb_spec a b)
    | H : context [?a <? ?b] |- _ => destruct (Z.ltb_spec a b)
    end;
  try lia; try reflexivity.

(** X18. The time picker keeps the hour of the event between 0 and 23.
    Choosing an hour from 1 to 12 shows that hour and keeps the half of
    the day; choosing the hour that is shown changes nothing; AM and PM
    move the hour to their half of the day and keep the hour shown.  The
    hour shown is the one that [fmtTimeSlot] prints. *)
Theorem time_picker_round_trip (popHour hour12 : Z) :
  0 <= popHour <= 23 -> 1 <= hour12 <= 12 ->
  0 <= Editor.chooseHour hour12 popHour <= 23 /\
  Editor.shownHour (Editor.chooseHour hour12 popHour) = hour12 /\
  (12 <=? Editor.chooseHour hour12 popHour) = (12 <=? popHour) /\
  1 <= Editor.shownHour popHour <= 12 /\
  Editor.chooseHour (Editor.shownHour popHour) popHour = popHour /\
  0 <= Editor.pressAM popHour <= 11 /\
  12 <= Editor.pressPM popHour <= 23 /\
  Editor.shownHour (Editor.pressAM popHour) = Editor.shownHour popHour /\
  Editor.shownHour (Editor.pressPM popHour) = Editor.shownHour popHour /\
  (forall m, Grid.fmtTimeSlot popHour m
             = JS.String_of_Z (Editor.shownHour popHour) +:+ ":"
               +:+ JS.padStart0 2 (JS.String_of_Z m) +:+ " "
               +:+ (if popHour <? 12 then "AM" else "PM")).
Proof.
  intros Hh H12.
  assert (Hshown : forall h, 0 <= h <= 23 ->
            Editor.shownHour h = if h =? 0 then 12 else if h >? 12 then h - 12 else h).
  { intros h Hr. unfold Editor.shownHour.
    assert (Hrem : Z.rem h 12 = h mod 12) by (apply Z.rem_mod_nonneg; lia).
    rewrite Hrem.
    destruct (Z.eqb_spec h 0) as [->|H0]; [reflexivity|].
    destruct (Z.gtb_spec h 12).
    - destruct (Z.eqb_spec (h mod 12) 0); zlia.
    - destruct (Z.eqb_spec (h mod 12) 0); zlia. }
  unfold Editor.chooseHour, Editor.pressAM, Editor.pressPM.
  repeat apply conj.
  all: try (intros m; unfold Grid.fmtTimeSlot; rewrite Hshown by lia; reflexivity).
  all: try (rewrite !Hshown; [|zcases..]); zcases.
Qed.

Lemma time_picker_round_trip_sample :
  Editor.chooseHour 12 15 = 12 /\ Editor.chooseHour 12 9 = 0 /\
  Editor.shownHour 0 = 12 /\ Editor.pressPM 0 = 12.
Proof.
  destruct (time_picker_round_trip 15 12) as (_ & _ & _ & _ & _ & _); [lia | lia |].
  repeat split; reflexivity.
Defined.

(** X19. [addMinutes] wraps around midnight: for a time and a duration
    whose sum is not negative, the hour is between 0 and 23, the minute
    between 0 and 59, and together they are that sum of minutes modulo
    the 1440 minutes of a day. *)
Theorem addMinutes_wraps (h m dur : Z) :
  0 <= h * 60 + m + dur ->
  let t := Helpers.addMinutes h m dur in
  0 <= t.1 <= 23 /\ 0 <= t.2 <= 59 /\
  t.1 * 60 + t.2 = (h * 60 + m + dur) mod 1440.
Proof.
  intros Hnn t. subst t. unfold Helpers.addMinutes. cbn [fst snd].
  set (total := h * 60 + m + dur) in *.
  rewrite !Z.rem_mod_nonneg by zlia. zlia.
Qed.

Lemma addMinutes_wraps_sample :
  Helpers.addMinutes 23 30 45 = (0, 15).
Proof.
  destruct (addMinutes_wraps 23 30 45) as (_ & _ & H); [lia|].
  reflexivity.
Defined.





Section ListFacts.
Context {A : Type}.
Implicit Types (l : list A) (x : A) (p : A -> bool).

Lemma findIndex_Some p l i :
  App.findIndex p l = Some i ->
  exists x, l !! i = Some x /\ p x = true /\ (i < length l)%nat.
Proof.
  revert i. induction l as [|a l IH]; intros i; simpl; [discriminate|].
  destruct (p a) eqn:Ha.
  - intros [= <-]. exists a. repeat split; [exact Ha | simpl; lia].
  - destruct (App.findIndex p l) as [j|]; simpl; [|discriminate].
    intros [= <-]. destruct (IH j eq_refl) as (x & Hx & Hp & Hj).
    exists x. repeat split; [exact Hx | exact Hp | simpl; lia].
Qed.

Lemma findIndex_None p l :
  App.findIndex p l = None -> forall x, In x l -> p x = false.
Proof.
  induction l as [|a l IH]; simpl; [tauto|].
  destruct (p a) eqn:Ha; [discriminate|].
  destruct (App.findIndex p l); simpl; [discriminate|].
  intros _ x [<-|Hx]; [exact Ha | exact (IH eq_refl x Hx)].
Qed.

Lemma removeAt_insertAt_perm l i k x :
  l !! i = Some x -> App.insertAt k x (App.removeAt i l) ≡ₚ l.
Proof.
  intros Hi. unfold App.insertAt.
  rewrite <- Permutation_middle, take_drop.
  unfold App.removeAt. rewrite <- (take_drop_middle l i x Hi) at 3.
  by rewrite <- Permutation_middle.
Qed.

Lemma insertAt_length k x l : length (App.insertAt k x l) = S (length l).
Proof.
  unfold App.insertAt. rewrite length_app. simpl.
  rewrite length_take, length_drop. lia.
Qed.

Lemma removeAt_length i l :
  (i < length l)%nat -> S (length (App.removeAt i l)) = length l.
Proof.
  intros Hi. unfold App.removeAt.
  rewrite length_app, length_take, length_drop. lia.
Qed.

Lemma insertAt_lookup k x l :
  App.insertAt k x l !! Nat.min k (length l) = Some x.
Proof.
  unfold App.insertAt.
  rewrite lookup_app_r; rewrite length_take; [|lia].
  replace (Nat.min k (length l) - Nat.min k (length l))%nat with 0%nat by lia.
  reflexivity.
Qed.

Lemma removeAt_insertAt k x l :
  App.removeAt (Nat.min k (length l)) (App.insertAt k x l) = l.
Proof.
  unfold App.removeAt, App.insertAt.
  assert (Hk : length (take k l) = Nat.min k (length l)) by apply length_take.
  rewrite <- Hk, take_app_length.
  change (S (length (take k l))) with (1 + length (take k l))%nat.
  rewrite Nat.add_comm, <- drop_drop, drop_app_length. simpl.
  rewrite drop_0. apply take_drop.
Qed.

Lemma insertAt_perm k x l : App.insertAt k x l ≡ₚ x :: l.
Proof.
  unfold App.insertAt. by rewrite <- Permutation_middle, take_drop.
Qed.

End ListFacts.

Section TaskListFacts.
Import Model.

Lemma filter_all_other (id : string) (l : list Task) :
  ~ In id (map t_id l) ->
  List.filter (fun x => negb (String.eqb (t_id x) id)) l = l.
Proof.
  induction l as [|a l IH]; simpl; [reflexivity|].
  intros Hn. destruct (String.eqb_spec (t_id a) id) as [E|E]; simpl.
  - exfalso. apply Hn. by left.
  - f_equal. apply IH. intros H. apply Hn. by right.
Qed.

Lemma filter_takes_one (id : string) (l : list Task) (t : Task) :
  List.NoDup (map t_id l) ->
  JS.find (fun x => String.eqb (t_id x) id) l = Some t ->
  t :: List.filter (fun x => negb (String.eqb (t_id x) id)) l ≡ₚ l.
Proof.
  unfold JS.find.
  induction l as [|a l IH]; simpl; [discriminate|].
  intros Hnd. apply List.NoDup_cons_iff in Hnd as [Hna Hnd].
  destruct (String.eqb_spec (t_id a) id) as [E|E]; simpl.
  - intros [= <-]. rewrite filter_all_other; [reflexivity|]. by rewrite <- E.
  - intros Hf. rewrite Permutation_swap. by rewrite (IH Hnd Hf).
Qed.

Lemma find_In (id : string) (l : list Task) (t : Task) :
  JS.find (fun x => String.eqb (t_id x) id) l = Some t -> In t l /\ t_id t = id.
Proof.
  unfold JS.find. intros H. apply List.find_some in H as [Hin Hid].
  split; [exact Hin|]. by apply String.eqb_eq.
Qed.

End TaskListFacts.

(** X22. [reorderHabit] of a habit that the list has: the new list is a
    rearrangement of the old one, the habit stands at the index asked
    for, or last when the index is past the end, and the other habits
    keep their order. *)
Theorem habit_reorder_moves_one
    (habitId : string) (newIndex i : nat) (p : list Model.Habit) :
  App.findIndex (fun h => String.eqb (Model.h_id h) habitId) p = Some i ->
  let r := App.reorderHabit habitId newIndex p in
  let k := Nat.min newIndex (length p - 1) in
  r ≡ₚ p /\ r !! k = p !! i /\ App.removeAt k r = App.removeAt i p.
Proof.
  intros Hi r k. subst r k. unfold App.reorderHabit. rewrite Hi.
  destruct (findIndex_Some _ _ _ Hi) as (x & Hx & _ & Hlt).
  destruct (Nat.eqb_spec i newIndex) as [<-|Hne].
  - replace (Nat.min i (length p - 1)) with i by lia. by repeat split.
  - rewrite Hx.
    pose proof (removeAt_length i p Hlt) as Hlen.
    replace (length p - 1)%nat with (length (App.removeAt i p)) by lia.
    repeat split.
    + by apply removeAt_insertAt_perm.
    + apply insertAt_lookup.
    + apply removeAt_insertAt.
Qed.

Lemma habit_reorder_moves_one_sample :
  App.reorderHabit "1" 2 MoreSamples.habits3 !! 2%nat = Some Samples.prayer /\
  App.reorderHabit "1" 7 MoreSamples.habits3 !! 2%nat = Some Samples.prayer.
Proof.
  split.
  - apply (habit_reorder_moves_one "1" 2 0 MoreSamples.habits3). reflexivity.
  - apply (habit_reorder_moves_one "1" 7 0 MoreSamples.habits3). reflexivity.
Defined.


Section WorkingFacts.
Import Model.

Lemma getList_setList (l : ListName) (v : list Task) (t : Tasks) :
  App.getList l (App.setList l v t) = v.
Proof. by destruct l. Qed.

Lemma getList_setList_ne (l l' : ListName) (v : list Task) (t : Tasks) :
  l <> l' -> App.getList l' (App.setList l v t) = App.getList l' t.
Proof. by destruct l, l'. Qed.

Lemma completed_setList (l : ListName) (v : list Task) (t : Tasks) :
  completed (App.setList l v t) = completed t.
Proof. by destruct l. Qed.

Lemma ListName_eqb_spec (a b : ListName) : reflect (a = b) (App.ListName_eqb a b).
Proof. destruct a, b; constructor; congruence. Qed.

(** Putting back in the list [l'] what was taken out of the list [l]. *)
Lemma working_take_put (l l' : ListName) (x : Task) (rest put : list Task) (t : Tasks) :
  l <> l' ->
  x :: rest ≡ₚ App.getList l t ->
  put ≡ₚ x :: App.getList l' t ->
  Rollover.working (App.setList l' put (App.setList l rest t)) ≡ₚ Rollover.working t.
Proof.
  intros Hne Hrest Hput.
  destruct t as [a b c d e].
  destruct l, l'; try congruence; unfold Rollover.working; simpl in *;
    rewrite Hput, <- Hrest; solve_Permutation.
Qed.

Lemma working_replace (l : ListName) (v : list Task) (t : Tasks) :
  v ≡ₚ App.getList l t ->
  Rollover.working (App.setList l v t) ≡ₚ Rollover.working t.
Proof.
  intros Hv. destruct t as [a b c d e].
  destruct l; unfold Rollover.working; simpl in *; by rewrite Hv.
Qed.

End WorkingFacts.

(** X23. [reorderTask] of a task that the list [fromList] has, the ids
    of that list being distinct: the four working lists hold the same
    tasks as before, the archive is untouched, and the task stands in
    the list [toList] at the index asked for, or last when the index is
    past the end. *)
Theorem task_reorder_conserves
    (taskId : string) (fromList toList : Model.ListName) (targetIndex : nat)
    (prev : Model.Tasks) (task : Model.Task) :
  JS.find (fun t => String.eqb (Model.t_id t) taskId) (App.getList fromList prev)
    = Some task ->
  List.NoDup (map Model.t_id (App.getList fromList prev)) ->
  let r := App.reorderTask taskId fromList toList targetIndex prev in
  Rollover.working r ≡ₚ Rollover.working prev /\
  Model.completed r = Model.completed prev /\
  App.getList toList r
    !! Nat.min targetIndex (length (App.getList toList r) - 1) = Some task.
Proof.
  intros Hf Hnd r. subst r. unfold App.reorderTask. rewrite Hf.
  pose proof (filter_takes_one taskId _ task Hnd Hf) as Hone.
  set (newFrom := List.filter _ _) in *. clearbody newFrom.
  destruct (ListName_eqb_spec fromList toList) as [<-|Hne].
  - repeat split.
    + apply working_replace. by rewrite insertAt_perm.
    + apply completed_setList.
    + rewrite getList_setList, insertAt_length. simpl.
      rewrite Nat.sub_0_r.
      match goal with
      | |- App.insertAt ?k _ ?l !! _ = _ =>
          rewrite <- (insertAt_lookup k task l); f_equal; lia
      end.
  - repeat split.
    + apply (working_take_put fromList toList task); [exact Hne|exact Hone|].
      apply insertAt_perm.
    + by rewrite !completed_setList.
    + rewrite getList_setList, insertAt_length. simpl.
      rewrite Nat.sub_0_r.
      match goal with
      | |- App.insertAt ?k _ ?l !! _ = _ =>
          rewrite <- (insertAt_lookup k task l); f_equal; lia
      end.
Qed.

Lemma task_reorder_conserves_sample :
  Model.today (App.reorderTask "a" Model.Primary Model.Today 0 MoreSamples.lists)
    !! 0%nat = Some (Samples.task "a" false).
Proof.
  apply (task_reorder_conserves "a" Model.Primary Model.Today 0 MoreSamples.lists
           (Samples.task "a" false)).
  - reflexivity.
  - vm_compute; repeat constructor; simpl; intuition discriminate.
Defined.


(** X24. [moveTask] of a task to another list, the ids of its list being
    distinct: the four working lists hold the same tasks as before and
    the task is the last one of the list it was moved to. *)
Theorem task_move_conserves
    (id : string) (from to : Model.ListName) (p : Model.Tasks) (t : Model.Task) :
  JS.find (fun x => String.eqb (Model.t_id x) id) (App.getList from p) = Some t ->
  List.NoDup (map Model.t_id (App.getList from p)) ->
  from <> to ->
  let r := App.moveTask id from to p p in
  Rollover.working r ≡ₚ Rollover.working p /\
  Model.completed r = Model.completed p /\
  App.getList to r = App.getList to p ++ [t] /\
  ~ In t (App.getList from r).
Proof.
  intros Hf Hnd Hne r. subst r. unfold App.moveTask. rewrite Hf.
  pose proof (filter_takes_one id _ t Hnd Hf) as Hone.
  repeat split.
  - apply (working_take_put from to t); [exact Hne|exact Hone|].
    by rewrite <- Permutation_cons_append.
  - by rewrite !completed_setList.
  - by rewrite getList_setList.
  - rewrite getList_setList_ne, getList_setList by congruence.
    intros Hin. apply List.filter_In in Hin as [_ Hid].
    destruct (find_In _ _ _ Hf) as [_ <-]. by rewrite String.eqb_refl in Hid.
Qed.

Lemma task_move_conserves_sample :
  Model.later (App.moveTask "a" Model.Primary Model.Later MoreSamples.lists MoreSamples.lists)
  = [Samples.task "d" false; Samples.task "a" false].
Proof.
  apply (task_move_conserves "a" Model.Primary Model.Later MoreSamples.lists
           (Samples.task "a" false)).
  - reflexivity.
  - vm_compute; repeat constructor; simpl; intuition discriminate.
  - discriminate.
Defined.


(** X25. A swipe to the left moves a task of the primary, of the today
    or of the week list to another list, and the working lists hold the
    same tasks as before; on a task of the later list the target is the
    later list itself, and the list then holds the task a second time,
    at its end. *)
Theorem swipe_left_moves_or_doubles
    (id : string) (list : Model.ListName) (p : Model.Tasks) (t : Model.Task) :
  JS.find (fun x => String.eqb (Model.t_id x) id) (App.getList list p) = Some t ->
  List.NoDup (map Model.t_id (App.getList list p)) ->
  let r := App.moveTask id list (App.swipeTarget list) p p in
  match list with
  | Model.Later =>
      Model.later r = Model.later p ++ [t] /\ In t (Model.later p) /\
      Model.primary r = Model.primary p /\ Model.today r = Model.today p /\
      Model.thisWeek r = Model.thisWeek p
  | _ => Rollover.working r ≡ₚ Rollover.working p
  end.
Proof.
  intros Hf Hnd r. subst r. unfold App.moveTask. rewrite Hf.
  pose proof (filter_takes_one id _ t Hnd Hf) as Hone.
  destruct list; simpl App.swipeTarget.
  - apply (working_take_put Model.Primary Model.Later t); [congruence|exact Hone|].
    by rewrite <- Permutation_cons_append.
  - apply (working_take_put Model.Today Model.ThisWeek t); [congruence|exact Hone|].
    by rewrite <- Permutation_cons_append.
  - apply (working_take_put Model.ThisWeek Model.Later t); [congruence|exact Hone|].
    by rewrite <- Permutation_cons_append.
  - simpl. repeat split. by destruct (find_In _ _ _ Hf).
Qed.

Lemma swipe_left_moves_or_doubles_sample :
  Model.later (App.moveTask "d" Model.Later (App.swipeTarget Model.Later)
                 MoreSamples.lists MoreSamples.lists)
  = [Samples.task "d" false; Samples.task "d" false].
Proof.
  apply (swipe_left_moves_or_doubles "d" Model.Later MoreSamples.lists
           (Samples.task "d" false)).
  - reflexivity.
  - vm_compute; repeat constructor; simpl; intuition discriminate.
Defined.


(** X26. [addTask] on the state of the last render: the task goes to the
    end of the list asked for, a primary list of five tasks sends it to
    the today list, so that a primary list of at most five tasks stays
    so, and nothing else changes. *)
Theorem add_task_keeps_primary_cap
    (newId text : string) (list : Model.ListName) (cat tm : string) (p : Model.Tasks) :
  (length (Model.primary p) <= 5)%nat ->
  let r := App.addTask newId text list cat tm p p in
  let target :=
    match list with
    | Model.Primary =>
        if decide (length (Model.primary p) = 5%nat) then Model.Today else Model.Primary
    | _ => list
    end in
  (length (Model.primary r) <= 5)%nat /\
  App.getList target r
    = App.getList target p ++
      [Model.mkTask newId text false (if JS.truthy_string cat then cat else "none"%string)
                    tm 0 None None] /\
  (forall l, l <> target -> App.getList l r = App.getList l p) /\
  Model.completed r = Model.completed p.
Proof.
  intros Hcap r target. subst r target. unfold App.addTask.
  destruct list;
    [destruct (Nat.leb_spec 5 (length (Model.primary p)));
     destruct (decide (length (Model.primary p) = 5%nat)); try lia|..];
    simpl.
  all: repeat split; try reflexivity; try (rewrite ?length_app; simpl; lia).
  all: intros l Hl; destruct l; try congruence; reflexivity.
Qed.

Lemma add_task_keeps_primary_cap_sample :
  Model.today (App.addTask "new" "Call home" Model.Primary "" "5m"
                 MoreSamples.fullPrimary MoreSamples.fullPrimary)
  = [Model.mkTask "new" "Call home" false "none" "5m" 0 None None].
Proof.
  apply (add_task_keeps_primary_cap "new" "Call home" Model.Primary "" "5m"
           MoreSamples.fullPrimary).
  simpl. lia.
Defined.


Section HistoryFacts.
Import Model.
Implicit Types (h : list HistoryEntry) (day : string) (d : bool).

Lemma markDay_length day d h : length (App.markDay day d h) = length h.
Proof.
  induction h as [|e h IH]; simpl; [reflexivity|].
  destruct (String.eqb (he_date e) day); simpl; congruence.
Qed.

Lemma markDay_find day d h i :
  App.findIndex (fun e => String.eqb (he_date e) day) h = Some i ->
  JS.find (fun e => String.eqb (he_date e) day) (App.markDay day d h)
  = Some (mkHistoryEntry day d).
Proof.
  unfold JS.find. revert i. induction h as [|e h IH]; intros i; simpl; [discriminate|].
  destruct (String.eqb_spec (he_date e) day) as [E|E]; simpl.
  - intros _. rewrite E, String.eqb_refl. reflexivity.
  - destruct (String.eqb_spec (he_date e) day) as [|_]; [contradiction|].
    destruct (App.findIndex _ h) as [j|]; [|discriminate]. intros _. by apply (IH j).
Qed.

Lemma pushed_find (p : HistoryEntry -> bool) h (e : HistoryEntry) (n : nat) :
  (forall x, In x h -> p x = false) -> p e = true -> (n <= length h)%nat ->
  JS.find p (drop n (h ++ [e])) = Some e.
Proof.
  unfold JS.find. intros Hh He. revert n.
  induction h as [|a h IH]; intros n Hn; simpl in *.
  - replace n with 0%nat by lia. simpl. by rewrite He.
  - destruct n as [|n]; simpl.
    + rewrite (Hh a) by tauto. apply (IH (fun x Hx => Hh x (or_intror Hx)) 0%nat). lia.
    + apply IH; [|lia]. intros x Hx. apply Hh. tauto.
Qed.

Lemma slice_last_short {A} (n : nat) (l : list A) :
  (length l <= n)%nat -> JS.slice_last n l = l.
Proof.
  intros H. unfold JS.slice_last.
  replace (length l - n)%nat with 0%nat by lia. apply drop_0.
Qed.

Lemma toggledHistory_recorded day d (history : option (list HistoryEntry)) :
  (length (default [] history) <= 7)%nat ->
  JS.find (fun e => String.eqb (he_date e) day) (App.toggledHistory day d history)
  = Some (mkHistoryEntry day d).
Proof.
  intros Hlen. unfold App.toggledHistory.
  destruct (App.findIndex _ (default [] history)) as [i|] eqn:E.
  - rewrite slice_last_short by (by rewrite markDay_length).
    by apply (markDay_find day d _ i).
  - unfold JS.slice_last. apply pushed_find.
    + apply (findIndex_None _ _ E).
    + simpl. apply String.eqb_refl.
    + rewrite length_app. simpl. lia.
Qed.

End HistoryFacts.

(** X27. [togHabit] on histories of at most seven entries: the habits
    keep their ids and their order, the habits of another id are
    unchanged, the habit of the id has its flag negated and a history of
    at most seven entries, in which the entry of the day records the new
    flag; a second toggle on the same day gives back every flag. *)
Theorem habit_toggle_recorded (day id : string) (p : list Model.Habit) :
  (forall y, In y p -> (length (default [] (Model.h_history y)) <= 7)%nat) ->
  let r := App.togHabit day id p in
  map Model.h_id r = map Model.h_id p /\
  map Model.h_done (App.togHabit day id r) = map Model.h_done p /\
  forall k x y, r !! k = Some x -> p !! k = Some y ->
    (length (default [] (Model.h_history x)) <= 7)%nat /\
    (Model.h_id y <> id -> x = y) /\
    (Model.h_id y = id ->
       Model.h_done x = negb (Model.h_done y) /\
       exists hist, Model.h_history x = Some hist /\
         JS.find (fun e => String.eqb (Model.he_date e) day) hist
         = Some (Model.mkHistoryEntry day (Model.h_done x))).
Proof.
  intros Hinv r. subst r. unfold App.togHabit. split; [|split].
  - rewrite map_map. apply map_ext. intros y.
    by destruct (String.eqb (Model.h_id y) id).
  - rewrite !map_map. apply map_ext. intros y.
    destruct (String.eqb (Model.h_id y) id) eqn:E; simpl; rewrite E; simpl;
      [apply negb_involutive | reflexivity].
  - intros k x y Hx Hy.
    rewrite list_lookup_fmap, Hy in Hx. injection Hx as <-.
    assert (Hlen : (length (default [] (Model.h_history y)) <= 7)%nat).
    { apply Hinv. apply list_elem_of_In. by eapply list_elem_of_lookup_2. }
    destruct (String.eqb_spec (Model.h_id y) id) as [E|E]; simpl.
    + split; [apply slice_last_length|]. split; [congruence|].
      intros _. split; [reflexivity|]. eexists. split; [reflexivity|].
      by apply toggledHistory_recorded.
    + split; [exact Hlen|]. split; [reflexivity|]. congruence.
Qed.

Lemma habit_toggle_recorded_sample :
  App.togHabit "2026-01-20" "3" [Samples.prayer; Samples.exercise]
  = [Samples.prayer;
     Model.mkHabit "3" "Exercise" None true
       (Some [Model.mkHistoryEntry "2026-01-18" true;
              Model.mkHistoryEntry "2026-01-20" true])] /\
  map Model.h_done
      (App.togHabit "2026-01-20" "3"
         (App.togHabit "2026-01-20" "3" [Samples.prayer; Samples.exercise]))
  = [true; false].
Proof.
  split; [reflexivity|].
  apply (habit_toggle_recorded "2026-01-20" "3" [Samples.prayer; Samples.exercise]).
  intros y [<-|[<-|[]]]; simpl; lia.
Defined.

Section MarkFacts.
Import Model.

Lemma scheduledTaskIds_app (a b : list SchedEvent) :
  Editor.scheduledTaskIds (a ++ b) = Editor.scheduledTaskIds a ∪ Editor.scheduledTaskIds b.
Proof.
  unfold Editor.scheduledTaskIds. by rewrite omap_app, list_to_set_app_L.
Qed.

Lemma purgeEvents_app (a b : list SchedEvent) :
  Rollover.purgeEvents (a ++ b) = Rollover.purgeEvents a ++ Rollover.purgeEvents b.
Proof. apply List.filter_app. Qed.

End MarkFacts.

(** X28. After the drop of a task that is in a working list and not
    done, the ids of the working lists being distinct, the set of the
    scheduled tasks is the one before with the id of the task added;
    once the rollover has purged the events the set is what the purge
    would have left without the drop. *)
Theorem dropped_task_is_marked
    (newId : string) (e : OrderView.DragEvent) (s : OrderView.State)
    (rectTop : Q) (t : Model.Task) (l : Model.ListName) :
  OrderView.gridTop e = Some rectTop ->
  OrderView.data e = Editor.taskPayload t ->
  In t (App.getList l (OrderView.tasks s)) ->
  Model.t_done t = false ->
  List.NoDup (map Model.t_id (Rollover.working (OrderView.tasks s))) ->
  let after := OrderView.schedEvents (OrderView.handleScheduleDrop newId e s) in
  Editor.scheduledTaskIds after
    = Editor.scheduledTaskIds (OrderView.schedEvents s) ∪ {[ Model.t_id t ]} /\
  Editor.scheduledTaskIds (Rollover.purgeEvents after)
    = Editor.scheduledTaskIds (Rollover.purgeEvents (OrderView.schedEvents s)).
Proof.
  intros Hg Hd Hin Hopen Hnd after.
  assert (Hstore : exists hour minute,
            after = OrderView.schedEvents s ++
                    [OrderView.taskBlock newId hour minute (OrderView.mkPicker t l)]).
  { subst after. unfold OrderView.handleScheduleDrop. rewrite Hg, Hd.
    destruct (Grid.getTimeFromY _ _ _ _ _) as [hour minute].
    exists hour, minute.
    unfold Editor.taskPayload, OrderView.dropCommit, OrderView.is_type.
    cbn [OrderView.d_type OrderView.d_taskId String.eqb Ascii.eqb Bool.eqb].
    cbn [OrderView.tasks OrderView.setDragLabel OrderView.setDropPreview].
    rewrite (allTasks_find _ t l Hnd Hin Hopen). reflexivity. }
  destruct Hstore as (hour & minute & ->). split.
  - rewrite scheduledTaskIds_app. f_equal.
    unfold Editor.scheduledTaskIds. simpl. apply (right_id_L ∅ (∪)).
  - rewrite purgeEvents_app. simpl. by rewrite app_nil_r.
Qed.

Lemma dropped_task_is_marked_sample :
  Editor.scheduledTaskIds
    (OrderView.schedEvents
       (OrderView.handleScheduleDrop "new"
          (ViewSamples.at_14_15 (Editor.taskPayload (Samples.task "b" false)))
          ViewSamples.view))
  = {[ "b"%string ]}.
Proof.
  destruct (dropped_task_is_marked "new"
              (ViewSamples.at_14_15 (Editor.taskPayload (Samples.task "b" false)))
              ViewSamples.view 100 (Samples.task "b" false) Model.Primary)
    as [Hset _].
  - reflexivity.
  - reflexivity.
  - simpl. right. left. reflexivity.
  - reflexivity.
  - vm_compute; repeat constructor; simpl; intuition discriminate.
  - rewrite Hset. unfold Editor.scheduledTaskIds. simpl. apply (left_id_L ∅ (∪)).
Defined.

(** X29. The block that a drop makes of a task whose estimate is one of
    [TIMES] lasts 30 minutes for no estimate, the minutes of an estimate
    in minutes, and as many minutes as an estimate in hours has hours:
    1, 2 and 3 minutes for [1h], [2h] and [3h+]. *)
Theorem estimate_in_hours_read_as_minutes
    (newId : string) (hour minute : Z) (task : OrderView.PickerTask) :
  In (Model.t_time (OrderView.pt_task task)) Editor.TIMES ->
  In (Model.t_time (OrderView.pt_task task),
      Model.e_duration (OrderView.taskBlock newId hour minute task))
     [(""%string, 30); ("5m"%string, 5); ("15m"%string, 15); ("30m"%string, 30);
      ("1h"%string, 1); ("2h"%string, 2); ("3h+"%string, 3)].
Proof.
  unfold OrderView.taskBlock. cbn [Model.e_duration].
  generalize (Model.t_time (OrderView.pt_task task)). intros tm Htm.
  repeat (destruct Htm as [<-|Htm]; [vm_compute; tauto|]).
  destruct Htm.
Qed.

Lemma estimate_in_hours_read_as_minutes_sample :
  In ("2h"%string,
      Model.e_duration (OrderView.taskBlock "new" 14 15 MoreSamples.report))
     [(""%string, 30); ("5m"%string, 5); ("15m"%string, 15); ("30m"%string, 30);
      ("1h"%string, 1); ("2h"%string, 2); ("3h+"%string, 3)].
Proof.
  apply (estimate_in_hours_read_as_minutes "new" 14 15 MoreSamples.report).
  simpl. tauto.
Defined.


